(** * Form submission controller of the performance-prediction front end

    A shallow embedding of the four submit handlers found in
    [static/script.js] (three handlers) and in the separate script that
    reports failures in a dedicated error element, together with the part
    of the browser they talk to: the captured DOM elements, the console,
    [fetch], the [Response] object, [parseFloat], [JSON.stringify] and the
    conversions [ToString] and [ToBoolean].

    Conventions of the model.
    - A JavaScript string is a [string] whose characters are read as code
      units below 256.
    - A JavaScript number is a binary64 value, written as a [spec_float]
      with precision 53 and maximal exponent 1024.
    - A form holds text fields only, so [new FormData(form)] is a list of
      (name, text) entries in document order.
    - Built-in prototypes are the ones the engine starts with.
    - Of an element the model keeps the text last assigned to it and its
      class list. The elements a handler assigns a text to do not contain
      one another. The text of an element that contains one of them, as
      the container [result] does, follows its content in the browser and
      is not tracked here, and no property depends on it. *)

From Stdlib Require Import ZArith String Ascii SpecFloat DecimalString.
From stdpp Require Import gmap strings list.

Local Open Scope string_scope.
Local Open Scope Z_scope.

(** ** Numbers *)

Module Number.

Definition prec : Z := 53.
Definition emax : Z := 1024.

Definition number : Type := spec_float.

Definition NaN : number := S754_nan.
Definition Infinity : number := S754_infinity false.
Definition zero : number := S754_zero false.

Definition isNaN (x : number) : bool :=
  match x with S754_nan => true | _ => false end.

Definition isZero (x : number) : bool :=
  match x with S754_zero _ => true | _ => false end.

Definition isFinite (x : number) : bool :=
  match x with S754_zero _ | S754_finite _ _ _ => true | _ => false end.

(** The binary64 value nearest to [m * 10^e] (ties to even), for [m > 0].
    Values at or above [10^310] and below [10^-330] are settled without
    computing the power. *)
Definition of_decimal (s : bool) (m : positive) (e : Z) : number :=
  if 310 <? e then S754_infinity s
  else if e + Z.log2 (Zpos m) / 3 + 1 <? -330 then S754_zero s
  else if 0 <=? e then
    binary_normalize prec emax
      (if s then - (Zpos m * 10 ^ e) else Zpos m * 10 ^ e) 0 s
  else
    let '(q, e2, l) :=
      SFdiv_core_binary prec emax (Zpos m) 0 (10 ^ (- e)) 0 in
    binary_round_aux prec emax s q e2 l.

Definition eqb (x y : number) : bool :=
  match x, y with
  | S754_zero a, S754_zero b => Bool.eqb a b
  | S754_infinity a, S754_infinity b => Bool.eqb a b
  | S754_nan, S754_nan => true
  | S754_finite a m e, S754_finite b m' e' =>
      Bool.eqb a b && Pos.eqb m m' && Z.eqb e e'
  | _, _ => false
  end.

(** *** Number::toString, radix 10 *)

Definition digits (z : Z) : string :=
  NilZero.string_of_uint (N.to_uint (Z.to_N z)).

Fixpoint zeros (n : nat) : string :=
  match n with O => "" | S n' => String "0" (zeros n') end.

Definition substring_from (n : nat) (s : string) : string :=
  String.substring n (String.length s - n) s.

(** [m * 2^e] as a fraction. *)
Definition fraction (m : positive) (e : Z) : Z * Z :=
  if 0 <=? e then (Zpos m * 2 ^ e, 1) else (Zpos m, 2 ^ (- e)).

(** [num / den < 10^n] *)
Definition below_pow10 (num den n : Z) : bool :=
  if 0 <=? n then num <? den * 10 ^ n else num * 10 ^ (- n) <? den.

Fixpoint first_pow10_above (fuel : nat) (num den n : Z) : Z :=
  match fuel with
  | O => n
  | S fuel' =>
      if below_pow10 num den n then n
      else first_pow10_above fuel' num den (n + 1)
  end.

(** The [n] with [10^(n-1) <= num/den < 10^n]. *)
Definition decimal_exponent (num den : Z) : Z :=
  let start := (Z.log2 num - Z.log2 den - 1) * 30102 / 100000 - 1 in
  first_pow10_above 8 num den start.

(** The [k]-digit significand [s] for which [s * 10^(n-k)] reads back as
    [x], if there is one; of two, the one nearer to the value, and the
    even one on a tie. *)
Definition significand (x : number) (num den n k : Z) : option Z :=
  let p := n - k in
  let '(a, b) :=
    if 0 <=? p then (num, den * 10 ^ p) else (num * 10 ^ (- p), den) in
  let lo := a / b in
  let r := a mod b in
  let hi := lo + 1 in
  let reads_back s :=
    (10 ^ (k - 1) <=? s) && (s <? 10 ^ k) &&
    match s with Zpos q => eqb (of_decimal false q p) x | _ => false end in
  match reads_back lo, reads_back hi with
  | true, true =>
      Some (match 2 * r ?= b with
            | Lt => lo
            | Gt => hi
            | Eq => if Z.even lo then lo else hi
            end)
  | true, false => Some lo
  | false, true => Some hi
  | false, false => None
  end.

(** Seventeen digits identify a binary64 value, so the search from one
    digit upwards stops at [k <= 17]. *)
Fixpoint shortest (fuel : nat) (x : number) (num den n k : Z) : Z * Z :=
  match significand x num den n k, fuel with
  | Some s, _ => (k, s)
  | None, S fuel' => shortest fuel' x num den n (k + 1)
  | None, O => (k, 10 ^ (k - 1))
  end.

(** The integers [n], [k] and [s] of Number::toString for [m * 2^e]. *)
Definition shortest_decimal (m : positive) (e : Z) : Z * Z * Z :=
  let x := S754_finite false m e in
  let '(num, den) := fraction m e in
  let n := decimal_exponent num den in
  if eqb (of_decimal false 1 n) x then (n + 1, 1, 1)
  else let '(k, s) := shortest 16 x num den n 1 in (n, k, s).

Definition format_decimal (n k s : Z) : string :=
  let ds := digits s in
  if (-5 <=? n) && (n <=? 21) then
    if k <=? n then ds ++ zeros (Z.to_nat (n - k))
    else if 0 <? n then
      String.substring 0 (Z.to_nat n) ds ++ "." ++
      substring_from (Z.to_nat n) ds
    else "0." ++ zeros (Z.to_nat (- n)) ++ ds
  else
    let c := n - 1 in
    let exponent := (if c <? 0 then "-" else "+") ++ digits (Z.abs c) in
    if k =? 1 then ds ++ "e" ++ exponent
    else String.substring 0 1 ds ++ "." ++ substring_from 1 ds ++
         "e" ++ exponent.

Definition toString (x : number) : string :=
  match x with
  | S754_nan => "NaN"
  | S754_zero _ => "0"
  | S754_infinity s => if s then "-Infinity" else "Infinity"
  | S754_finite s m e =>
      let '(n, k, d) := shortest_decimal m e in
      (if s then "-" else "") ++ format_decimal n k d
  end.

End Number.

Import Number.

(** ** Values, errors and completions *)

Record Error := { name : string; message : string }.

Definition TypeError (msg : string) : Error :=
  {| name := "TypeError"; message := msg |}.
Definition SyntaxError (msg : string) : Error :=
  {| name := "SyntaxError"; message := msg |}.
(** [new Error(msg)] *)
Definition new_Error (msg : string) : Error :=
  {| name := "Error"; message := msg |}.

(** How an evaluation ends: with a value, with a thrown error, or never,
    when it awaits a promise that is never settled. *)
Inductive completion (A : Type) : Type :=
  | Normal (a : A)
  | Throw (e : Error)
  | Pending.
Arguments Normal {A} a.
Arguments Throw {A} e.
Arguments Pending {A}.

(** How a conversion or a property access ends: it cannot wait. *)
Inductive result (A : Type) : Type :=
  | Value (a : A)
  | Raised (e : Error).
Arguments Value {A} a.
Arguments Raised {A} e.

(** The values that [response.json()] and the form can hand to a handler,
    and [undefined] for an absent property. An object lists its own
    properties, each key once, in the order of [Object.keys]. *)
#[warnings="-register-all"]
Inductive value : Type :=
  | Undefined
  | Null
  | Boolean (b : bool)
  | Num (x : number)
  | Str (s : string)
  | Arr (items : list value)
  | Obj (props : list (string * value)).

Fixpoint assoc {A : Type} (k : string) (l : list (string * A)) : option A :=
  match l with
  | [] => None
  | (k', a) :: l' => if String.eqb k k' then Some a else assoc k l'
  end.

Definition ToBoolean (v : value) : bool :=
  match v with
  | Undefined | Null => false
  | Boolean b => b
  | Num x => negb (isNaN x || isZero x)
  | Str s => negb (String.eqb s "")
  | Arr _ | Obj _ => true
  end.

(** [v === undefined] *)
Definition is_undefined (v : value) : bool :=
  match v with Undefined => true | _ => false end.

(** [a || b] on values. *)
Definition or_else (a b : value) : value := if ToBoolean a then a else b.

(** The messages of the engine's own errors (the wording is V8's). *)
Definition cannot_read (p : string) (base : string) : string :=
  "Cannot read properties of " ++ base ++ " (reading '" ++ p ++ "')".
Definition cannot_convert : string :=
  "Cannot convert object to primitive value".

(** [v.p], for a property name [p] that no built-in prototype defines and
    that is neither an index nor [length]: here [prediction] and [error]. *)
Definition Get (v : value) (p : string) : result value :=
  match v with
  | Undefined => Raised (TypeError (cannot_read p "undefined"))
  | Null => Raised (TypeError (cannot_read p "null"))
  | Obj props => Value (default Undefined (assoc p props))
  | Boolean _ | Num _ | Str _ | Arr _ => Value Undefined
  end.

(** [ToString], as a template literal and [new Error] apply it. A parsed
    object has no callable property of its own, so one with a [toString]
    entry has no way to a primitive. *)
Fixpoint ToString (v : value) : result string :=
  match v with
  | Undefined => Value "undefined"
  | Null => Value "null"
  | Boolean b => Value (if b then "true" else "false")
  | Num x => Value (Number.toString x)
  | Str s => Value s
  | Arr items =>
      (fix join (l : list value) : result string :=
         let element x :=
           match x with
           | Undefined | Null => Value ""
           | _ => ToString x
           end in
         match l with
         | [] => Value ""
         | [x] => element x
         | x :: rest =>
             match element x with
             | Value a =>
                 match join rest with
                 | Value b => Value (a ++ "," ++ b)
                 | Raised e => Raised e
                 end
             | Raised e => Raised e
             end
         end) items
  | Obj props =>
      match assoc "toString" props with
      | Some _ => Raised (TypeError cannot_convert)
      | None => Value "[object Object]"
      end
  end.

(** ** parseFloat *)

Definition code (c : ascii) : N := N_of_ascii c.

Definition is_white_space (c : ascii) : bool :=
  let n := code c in
  (((9 <=? n) && (n <=? 13)) || (n =? 32) || (n =? 160))%N.

Definition is_digit (c : ascii) : bool :=
  ((48 <=? code c) && (code c <=? 57))%N.

Fixpoint trim_start (s : string) : string :=
  match s with
  | String c s' => if is_white_space c then trim_start s' else s
  | EmptyString => s
  end.

(** The leading decimal digits of [s], as their value and their count, and
    what follows them. *)
Fixpoint span_digits (acc : Z) (len : nat) (s : string) : Z * nat * string :=
  match s with
  | String c s' =>
      if is_digit c
      then span_digits (10 * acc + Z.of_N (code c - 48)) (S len) s'
      else (acc, len, s)
  | EmptyString => (acc, len, s)
  end.

Definition exponent_part (s : string) : Z :=
  match s with
  | String c s' =>
      if (code c =? 101)%N || (code c =? 69)%N then
        let '(neg, s'') :=
          match s' with
          | String "-" r => (true, r)
          | String "+" r => (false, r)
          | _ => (false, s')
          end in
        let '(e, len, _) := span_digits 0 O s'' in
        match len with O => 0 | _ => if neg then - e else e end
      else 0
  | EmptyString => 0
  end.

(** The longest prefix of the trimmed input that is a StrDecimalLiteral
    gives the result; without one the result is NaN. *)
Definition parseFloat (input : string) : number :=
  let trimmed := trim_start input in
  let '(neg, s) :=
    match trimmed with
    | String "-" r => (true, r)
    | String "+" r => (false, r)
    | _ => (false, trimmed)
    end in
  if String.prefix "Infinity" s then S754_infinity neg
  else
    let '(int, int_len, s1) := span_digits 0 O s in
    let '(mant, frac_len, s2) :=
      match s1 with
      | String "." r => span_digits int O r
      | _ => (int, O, s1)
      end in
    match int_len, frac_len with
    | O, O => NaN
    | _, _ =>
        match mant with
        | Zpos m => of_decimal neg m (exponent_part s2 - Z.of_nat frac_len)
        | _ => S754_zero neg
        end
    end.

(** ** Objects built by assignment, and JSON.stringify *)

(** An array index is the canonical decimal form of an integer below
    [2^32 - 1]; such keys come first among an object's own keys, in
    ascending order, and the others follow in order of creation. *)
Definition index_value (k : string) : Z := fst (fst (span_digits 0 O k)).

Definition is_array_index (k : string) : bool :=
  let '(n, len, rest) := span_digits 0 O k in
  String.eqb rest "" && negb (Nat.eqb len 0) &&
  String.eqb (digits n) k && (n <? 2 ^ 32 - 1).

Fixpoint update (k : string) (v : value) (props : list (string * value))
  : list (string * value) :=
  match props with
  | [] => []
  | (k', a) :: rest =>
      if String.eqb k k' then (k, v) :: rest else (k', a) :: update k v rest
  end.

Fixpoint insert_index (k : string) (v : value) (props : list (string * value))
  : list (string * value) :=
  match props with
  | [] => [(k, v)]
  | (k', a) :: rest =>
      if is_array_index k' && (index_value k' <? index_value k)
      then (k', a) :: insert_index k v rest
      else (k, v) :: props
  end.

(** [obj[k] = v] on an ordinary object and a primitive [v]. The one
    inherited accessor, [__proto__], takes the assignment and drops a
    primitive; every other key becomes, or stays, an own property. *)
Definition set_property (props : list (string * value)) (k : string) (v : value)
  : list (string * value) :=
  if String.eqb k "__proto__" then props
  else match assoc k props with
       | Some _ => update k v props
       | None =>
           if is_array_index k then insert_index k v props
           else (props ++ [(k, v)])%list
       end.

Definition dquote : string := String "034" "".

Definition hex_digit (n : N) : string :=
  String.substring (N.to_nat n) 1 "0123456789abcdef".

Definition quote_char (c : ascii) : string :=
  let n := code c in
  if (n =? 8)%N then "\b"
  else if (n =? 9)%N then "\t"
  else if (n =? 10)%N then "\n"
  else if (n =? 12)%N then "\f"
  else if (n =? 13)%N then "\r"
  else if (n =? 34)%N then "\" ++ dquote
  else if (n =? 92)%N then "\\"
  else if (n <? 32)%N then "\u00" ++ hex_digit (n / 16) ++ hex_digit (n mod 16)
  else String c "".

Fixpoint quote_chars (s : string) : string :=
  match s with
  | EmptyString => ""
  | String c s' => quote_char c ++ quote_chars s'
  end.

Definition QuoteJSONString (s : string) : string :=
  dquote ++ quote_chars s ++ dquote.

Fixpoint join (sep : string) (l : list string) : string :=
  match l with
  | [] => ""
  | [x] => x
  | x :: rest => x ++ sep ++ join sep rest
  end.

(** SerializeJSONProperty without replacer or indentation; [None] stands
    for [undefined]. No value here has a callable [toJSON]. *)
Fixpoint SerializeJSONProperty (v : value) : option string :=
  match v with
  | Undefined => None
  | Null => Some "null"
  | Boolean b => Some (if b then "true" else "false")
  | Num x => Some (if isFinite x then Number.toString x else "null")
  | Str s => Some (QuoteJSONString s)
  | Arr items =>
      let elements :=
        (fix go (l : list value) : list string :=
           match l with
           | [] => []
           | x :: rest => default "null" (SerializeJSONProperty x) :: go rest
           end) items in
      Some ("[" ++ join "," elements ++ "]")
  | Obj props =>
      let members :=
        (fix go (l : list (string * value)) : list string :=
           match l with
           | [] => []
           | (k, x) :: rest =>
               match SerializeJSONProperty x with
               | Some s => (QuoteJSONString k ++ ":" ++ s) :: go rest
               | None => go rest
               end
           end) props in
      Some ("{" ++ join "," members ++ "}")
  end.

(** [JSON.stringify(v)] for a [v] other than [undefined]. *)
Definition JSON_stringify (v : value) : string :=
  default "undefined" (SerializeJSONProperty v).

(** ** The page, the network and the handler monad *)

Record element := { textContent : string; classList : list string }.

Inductive Body :=
  | FormDataBody (entries : list (string * string))
  | TextBody (s : string).

Record Request := {
  url : string;
  method : string;
  headers : list (string * string);
  body : Body
}.

(** A response: its status, and how the promises of [response.text()] and
    [response.json()] settle. *)
Record Response := {
  status : N;
  text : completion string;
  json : completion value
}.

Definition ok (r : Response) : bool :=
  ((200 <=? status r) && (status r <=? 299))%N.

(** [`${response.status}`] *)
Definition status_text (r : Response) : string := digits (Z.of_N (status r)).

Inductive logged := LogStr (s : string) | LogErr (e : Error).

Inductive event :=
  | PreventDefault
  | SetTextContent (id text : string)
  | ClassListAdd (id cls : string)
  | ClassListRemove (id cls : string)
  | Fetch (req : Request)
  | ConsoleError (args : list logged).

(** The elements the script looked up by id when the page was ready (an
    absent id stands for the [null] that [getElementById] returned), and
    what has happened so far, latest first. *)
Record World := {
  elements : gmap string element;
  history : list event
}.

Definition events (w : World) : list event := rev (history w).

Definition M (A : Type) : Type := World -> completion A * World.

Definition ret {A} (a : A) : M A := fun w => (Normal a, w).

Definition bind {A B} (m : M A) (k : A -> M B) : M B :=
  fun w =>
    match m w with
    | (Normal a, w') => k a w'
    | (Throw e, w') => (Throw e, w')
    | (Pending, w') => (Pending, w')
    end.

Notation "'let!' x ':=' m 'in' k" := (bind m (fun x => k))
  (at level 10, x name, m at level 100, k at level 200).
Notation "m >> k" := (bind m (fun _ => k))
  (at level 80, right associativity).

Definition throw {A} (e : Error) : M A := fun w => (Throw e, w).

(** [await p] *)
Definition await {A} (c : completion A) : M A := fun w => (c, w).

Definition evaluate {A} (r : result A) : M A :=
  fun w => (match r with Value a => Normal a | Raised e => Throw e end, w).

Definition emit (ev : event) : M unit :=
  fun w => (Normal tt, {| elements := elements w; history := ev :: history w |}).

Definition try_catch {A} (block : M A) (handler : Error -> M A) : M A :=
  fun w =>
    match block w with
    | (Throw e, w') => handler e w'
    | r => r
    end.

Definition try_finally {A} (block : M A) (cleanup : M unit) : M A :=
  fun w =>
    match block w with
    | (Pending, w') => (Pending, w')
    | (c, w') =>
        match cleanup w' with
        | (Normal _, w'') => (c, w'')
        | (Throw e, w'') => (Throw e, w'')
        | (Pending, w'') => (Pending, w'')
        end
    end.

Definition cannot_set (p : string) : string :=
  "Cannot set properties of null (setting '" ++ p ++ "')".

Definition preventDefault : M unit := emit PreventDefault.

(** [el.textContent = s] *)
Definition set_textContent (id s : string) : M unit :=
  fun w =>
    match elements w !! id with
    | None => (Throw (TypeError (cannot_set "textContent")), w)
    | Some el =>
        (Normal tt,
         {| elements :=
              <[id := {| textContent := s; classList := classList el |}]>
                (elements w);
            history := SetTextContent id s :: history w |})
    end.

Definition contains (cls : string) (l : list string) : bool :=
  existsb (String.eqb cls) l.

Definition with_classList (id : string) (ev : event)
    (f : list string -> list string) : M unit :=
  fun w =>
    match elements w !! id with
    | None => (Throw (TypeError (cannot_read "classList" "null")), w)
    | Some el =>
        (Normal tt,
         {| elements :=
              <[id := {| textContent := textContent el;
                         classList := f (classList el) |}]> (elements w);
            history := ev :: history w |})
    end.

Definition add_token (cls : string) (l : list string) : list string :=
  if contains cls l then l else (l ++ [cls])%list.

Definition remove_token (cls : string) (l : list string) : list string :=
  List.filter (fun c => negb (String.eqb cls c)) l.

(** [el.classList.add(cls)] *)
Definition classList_add (id cls : string) : M unit :=
  with_classList id (ClassListAdd id cls) (add_token cls).

(** [el.classList.remove(cls)] *)
Definition classList_remove (id cls : string) : M unit :=
  with_classList id (ClassListRemove id cls) (remove_token cls).

Definition console_error (args : list logged) : M unit :=
  emit (ConsoleError args).

Section Handlers.

(** How the network answers a request. *)
Variable net : Request -> completion Response.

Definition fetch (req : Request) : M Response :=
  emit (Fetch req) >> await (net req).

(** *** static/script.js, first handler: multipart body, raw body text in
    the message of a failed status *)

Definition multipart_request (formData : list (string * string)) : Request :=
  {| url := "/predict"; method := "POST"; headers := [];
     body := FormDataBody formData |}.

Definition submit_multipart (form : list (string * string)) : M unit :=
  preventDefault >>
  let formData := form in
  set_textContent "prediction-result" "Processing..." >>
  try_catch
    (let! response := fetch (multipart_request formData) in
     (if negb (ok response) then
        let! errorText := await (text response) in
        throw (new_Error ("HTTP error! Status: " ++ status_text response ++
                          ", Message: " ++ errorText))
      else ret tt) >>
     let! data := await (json response) in
     let! prediction := evaluate (Get data "prediction") in
     if negb (is_undefined prediction) then
       let! shown := evaluate (ToString prediction) in
       set_textContent "prediction-result" ("Prediction: " ++ shown)
     else
       let! error := evaluate (Get data "error") in
       let! shown :=
         evaluate (ToString (or_else error (Str "No prediction available"))) in
       set_textContent "prediction-result" ("Error: " ++ shown))
    (fun error =>
       console_error [LogStr "Error:"; LogErr error] >>
       set_textContent "prediction-result" ("Error: " ++ message error)).

(** *** static/script.js, second handler: JSON body, loading class *)

Definition coerce (key val : string) : value :=
  if String.eqb key "name" then Str val
  else or_else (Num (parseFloat val)) (Num zero).

(** [formData.forEach((value, key) => { jsonData[key] = ... })] *)
Definition jsonData (formData : list (string * string)) : list (string * value) :=
  fold_left (fun obj '(key, val) => set_property obj key (coerce key val))
            formData [].

Definition json_request (payload : list (string * value)) : Request :=
  {| url := "/predict"; method := "POST";
     headers := [("Content-Type", "application/json")];
     body := TextBody (JSON_stringify (Obj payload)) |}.

Definition generic_failure : string :=
  "An error occurred while processing your request.".

Definition submit_json (form : list (string * string)) : M unit :=
  preventDefault >>
  set_textContent "prediction-result" "Processing..." >>
  classList_add "result" "loading" >>
  let formData := form in
  let payload := jsonData formData in
  try_finally
    (try_catch
       (let! response := fetch (json_request payload) in
        (if negb (ok response) then
           let errorMessage := "HTTP Error: " ++ status_text response in
           throw (new_Error errorMessage)
         else ret tt) >>
        let! data := await (json response) in
        let! prediction := evaluate (Get data "prediction") in
        if ToBoolean prediction then
          let! shown := evaluate (ToString prediction) in
          set_textContent "prediction-result" ("Predicted Final Marks: " ++ shown)
        else
          let! error := evaluate (Get data "error") in
          let! shown :=
            evaluate (ToString (or_else error (Str "Unexpected error occurred"))) in
          set_textContent "prediction-result" ("Error: " ++ shown))
       (fun error =>
          console_error
            [LogStr "Error:";
             if String.eqb (message error) "" then LogErr error
             else LogStr (message error)] >>
          set_textContent "prediction-result" generic_failure))
    (classList_remove "result" "loading").

(** *** static/script.js, third handler: as the first, without the
    processing text *)

Definition submit_plain (form : list (string * string)) : M unit :=
  preventDefault >>
  let formData := form in
  try_catch
    (let! response := fetch (multipart_request formData) in
     (if negb (ok response) then
        let! errorText := await (text response) in
        throw (new_Error ("HTTP error! Status: " ++ status_text response ++
                          ", Message: " ++ errorText))
      else ret tt) >>
     let! data := await (json response) in
     let! prediction := evaluate (Get data "prediction") in
     if negb (is_undefined prediction) then
       let! shown := evaluate (ToString prediction) in
       set_textContent "prediction-result" ("Prediction: " ++ shown)
     else
       let! error := evaluate (Get data "error") in
       let! shown :=
         evaluate (ToString (or_else error (Str "No prediction available"))) in
       set_textContent "prediction-result" ("Error: " ++ shown))
    (fun error =>
       console_error [LogStr "Error:"; LogErr error] >>
       set_textContent "prediction-result" ("Error: " ++ message error)).

(** *** The script with a dedicated error element: the body is parsed
    before the status is looked at *)

Definition submit_error_element (form : list (string * string)) : M unit :=
  preventDefault >>
  set_textContent "prediction-result" "" >>
  set_textContent "error-result" "" >>
  let formData := form in
  try_catch
    (let! response := fetch (multipart_request formData) in
     let! data := await (json response) in
     (if negb (ok response) then
        let! error := evaluate (Get data "error") in
        let! msg :=
          evaluate (ToString
                   (or_else error
                      (Str ("HTTP error! status: " ++ status_text response)))) in
        throw (new_Error msg)
      else ret tt) >>
     let! prediction := evaluate (Get data "prediction") in
     if negb (is_undefined prediction) then
       let! shown := evaluate (ToString prediction) in
       set_textContent "prediction-result" ("Prediction: " ++ shown)
     else
       let! error := evaluate (Get data "error") in
       let! shown :=
         evaluate (ToString (or_else error (Str "No prediction available"))) in
       set_textContent "error-result" ("Error: " ++ shown))
    (fun error =>
       console_error [LogStr "Error:"; LogErr error] >>
       set_textContent "error-result" ("Error: " ++ message error)).

End Handlers.

(** ** What a run leaves on the page *)

Definition shown (id : string) (w : World) : option string :=
  textContent <$> elements w !! id.

Definition classes (id : string) (w : World) : option (list string) :=
  classList <$> elements w !! id.

(** The script found the element when the page was ready. *)
Definition present (id : string) (w : World) : Prop :=
  is_Some (elements w !! id).

(** [t] occurs in [s]. *)
Definition includes (s t : string) : Prop :=
  exists pre post, s = pre ++ t ++ post.

Fixpoint includesb (s t : string) : bool :=
  String.prefix t s ||
  match s with
  | EmptyString => false
  | String _ s' => includesb s' t
  end.

(** The texts assigned to elements, in order. *)
Definition writes (evs : list event) : list (string * string) :=
  omap (fun ev => match ev with
                  | SetTextContent id t => Some (id, t)
                  | _ => None
                  end) evs.

(** The promises a run may await are all settled. *)
Definition settled (o : completion Response) : Prop :=
  match o with
  | Pending => False
  | Throw _ => True
  | Normal r => text r <> Pending /\ json r <> Pending
  end.

(** The failures of a submission: the network is unreachable, the status
    is not a success, the body is not JSON, the body has no [prediction]
    to read. *)
Definition failure (o : completion Response) : Prop :=
  match o with
  | Pending => False
  | Throw _ => True
  | Normal r =>
      ok r = false \/
      (exists e, json r = Throw e) \/
      (exists data, json r = Normal data /\
                    (Get data "prediction" = Value Undefined \/
                     exists e, Get data "prediction" = Raised e))
  end.

(** The page after an event, after an assignment to [textContent] and
    after a change of a class list. *)
Definition record (ev : event) (w : World) : World := snd (emit ev w).

Definition write (id t : string) (w : World) : World :=
  snd (set_textContent id t w).

Definition retoken (id : string) (ev : event) (f : list string -> list string)
    (w : World) : World :=
  snd (with_classList id ev f w).

(** *** A page and some servers to run the handlers on *)

Definition blank (t : string) : element :=
  {| textContent := t; classList := [] |}.

(** A page with the three elements, the result element showing [previous]. *)
Definition page (previous : string) : World :=
  {| elements :=
       <["prediction-result" := blank previous]>
         (<["result" := blank ""]> (<["error-result" := blank ""]> ∅));
     history := [] |}.

Definition respond (st : N) (raw : string) (parsed : completion value)
  : Request -> completion Response :=
  fun _ => Normal {| status := st; text := Normal raw; json := parsed |}.

Definition unreachable : Request -> completion Response :=
  fun _ => Throw (TypeError "Failed to fetch").

Definition alice : list (string * string) := [("name", "Alice")].

(** [{"prediction": 0}] with status 200 *)
Definition zero_prediction : Request -> completion Response :=
  respond 200 ("{" ++ dquote ++ "prediction" ++ dquote ++ ": 0}")
    (Normal (Obj [("prediction", Num zero)])).

(** [{"prediction": 87.5}] with status 200 *)
Definition good_prediction : Request -> completion Response :=
  respond 200 ("{" ++ dquote ++ "prediction" ++ dquote ++ ": 87.5}")
    (Normal (Obj [("prediction", Num (parseFloat "87.5"))])).

Definition response_500 (raw : string) (parsed : completion value) : Response :=
  {| status := 500; text := Normal raw; json := parsed |}.

(** [{ "error": "model unavailable" }] with status 500 *)
Definition model_unavailable_body : string :=
  "{ " ++ dquote ++ "error" ++ dquote ++ ": " ++
  dquote ++ "model unavailable" ++ dquote ++ " }".

Definition model_unavailable : Request -> completion Response :=
  fun _ => Normal (response_500 model_unavailable_body
                     (Normal (Obj [("error", Str "model unavailable")]))).

(** An HTML error page with status 500 *)
Definition server_error_page : Request -> completion Response :=
  fun _ => Normal (response_500 "<html>Internal Server Error</html>"
                     (Throw (SyntaxError "Unexpected token '<'"))).

(** ** What a handler comes to *)

(** The end of a [try] block: the text of a prediction, the text of a
    refusal (the body holds no prediction), a caught error, or a wait
    without end. *)
Inductive verdict :=
  | Predicted (text : string)
  | Refused (text : string)
  | Caught (e : Error)
  | Hangs.

Definition settle {A} (c : completion A) (k : A -> verdict) : verdict :=
  match c with
  | Normal a => k a
  | Throw e => Caught e
  | Pending => Hangs
  end.

Definition attempt {A} (r : result A) (k : A -> verdict) : verdict :=
  match r with
  | Value a => k a
  | Raised e => Caught e
  end.

Definition fallback (data : value) (default : string) : verdict :=
  attempt (Get data "error") (fun error =>
  attempt (ToString (or_else error (Str default))) (fun shown =>
  Refused ("Error: " ++ shown))).

Definition display (data : value) : verdict :=
  attempt (Get data "prediction") (fun prediction =>
  if negb (is_undefined prediction) then
    attempt (ToString prediction) (fun shown =>
    Predicted ("Prediction: " ++ shown))
  else fallback data "No prediction available").

(** The [try] block of the two multipart handlers. *)
Definition multipart_verdict (o : completion Response) : verdict :=
  settle o (fun r =>
  if negb (ok r) then
    settle (text r) (fun errorText =>
    Caught (new_Error ("HTTP error! Status: " ++ status_text r ++
                       ", Message: " ++ errorText)))
  else settle (json r) display).

(** The [try] block of the handler with the error element. *)
Definition error_element_verdict (o : completion Response) : verdict :=
  settle o (fun r =>
  settle (json r) (fun data =>
  if negb (ok r) then
    attempt (Get data "error") (fun error =>
    attempt (ToString (or_else error
               (Str ("HTTP error! status: " ++ status_text r)))) (fun msg =>
    Caught (new_Error msg)))
  else display data)).

(** The [try] block of the handler with the JSON body. *)
Definition json_verdict (o : completion Response) : verdict :=
  settle o (fun r =>
  if negb (ok r) then Caught (new_Error ("HTTP Error: " ++ status_text r))
  else
    settle (json r) (fun data =>
    attempt (Get data "prediction") (fun prediction =>
    if ToBoolean prediction then
      attempt (ToString prediction) (fun shown =>
      Predicted ("Predicted Final Marks: " ++ shown))
    else fallback data "Unexpected error occurred"))).

(** The run that ends a handler: a prediction goes to the result element
    and a refusal to [target], or the [catch] block runs; then the
    [finally] block; a wait leaves the page as it is. *)
Definition conclude (v : verdict) (target : string)
    (catch : Error -> World -> World) (finally : World -> World) (w : World)
  : completion unit * World :=
  match v with
  | Predicted t => (Normal tt, finally (write "prediction-result" t w))
  | Refused t => (Normal tt, finally (write target t w))
  | Caught e => (Normal tt, finally (catch e w))
  | Hangs => (Pending, w)
  end.

(** The [catch] blocks. *)
Definition report (target : string) (e : Error) (w : World) : World :=
  write target ("Error: " ++ message e)
    (record (ConsoleError [LogStr "Error:"; LogErr e]) w).

Definition report_generic (e : Error) (w : World) : World :=
  write "prediction-result" generic_failure
    (record (ConsoleError
               [LogStr "Error:";
                if String.eqb (message e) "" then LogErr e
                else LogStr (message e)]) w).

(** A block that meets a failure ends with a caught error or a refusal. *)
Definition refusal (v : verdict) : Prop :=
  match v with
  | Caught _ => True
  | Refused t => exists x, t = "Error: " ++ x
  | Predicted _ | Hangs => False
  end.

(** ** The JSON payload *)

(** The value of the last field named [key]. *)
Fixpoint last_value (key : string) (form : list (string * string))
  : option string :=
  match form with
  | [] => None
  | (k, v) :: rest =>
      match last_value key rest with
      | Some x => Some x
      | None => if String.eqb key k then Some v else None
      end
  end.

(** The loop of [jsonData], started from any object. *)
Definition fill (obj : list (string * value)) (formData : list (string * string))
  : list (string * value) :=
  fold_left (fun obj '(key, val) => set_property obj key (coerce key val))
            formData obj.

(** Every entry other than [name] is a number other than NaN. *)
Definition numeric (props : list (string * value)) : Prop :=
  forall k v, assoc k props = Some v -> k <> "name" ->
    exists x, v = Num x /\ isNaN x = false.

(** ** More of what a run leaves behind *)

(** The requests issued and the console entries made, in order. *)
Definition requests (evs : list event) : list Request :=
  omap (fun ev => match ev with Fetch req => Some req | _ => None end) evs.

Definition logs (evs : list event) : list (list logged) :=
  omap (fun ev => match ev with ConsoleError args => Some args | _ => None end)
       evs.

(** [w'] is [w] some events later. *)
Definition extends (w w' : World) : Prop :=
  exists later, history w' = (later ++ history w)%list.

(** An event that assigns a text to no element but those of [texts] and
    changes the class list of no element but those of [containers]. *)
Definition own (texts containers : list string) (ev : event) : Prop :=
  match ev with
  | SetTextContent id _ => In id texts
  | ClassListAdd id _ | ClassListRemove id _ => In id containers
  | PreventDefault | Fetch _ | ConsoleError _ => True
  end.

(** A computation that takes every page to a page related to it by [R]. *)
Definition preserves (R : World -> World -> Prop) {A} (m : M A) : Prop :=
  forall w, R w (snd (m w)).

(** A page on which the script found no element. *)
Definition empty_page : World := {| elements := ∅; history := [] |}.

(** A page with the result element only. *)
Definition result_only_page : World :=
  {| elements := {["prediction-result" := blank ""]}; history := [] |}.

(** A text of white space only. *)
Fixpoint all_white_space (s : string) : bool :=
  match s with
  | EmptyString => true
  | String c s' => is_white_space c && all_white_space s'
  end.

(** [{"prediction": null}], [{}] and [null] with status 200 *)
Definition null_prediction : Request -> completion Response :=
  respond 200 ("{" ++ dquote ++ "prediction" ++ dquote ++ ": null}")
    (Normal (Obj [("prediction", Null)])).

Definition empty_object : Request -> completion Response :=
  respond 200 "{}" (Normal (Obj [])).

Definition null_body : Request -> completion Response :=
  respond 200 "null" (Normal Null).

(** A request that is not answered. *)
Definition unanswered : Request -> completion Response := fun _ => Pending.

(** A text that, after its leading white space, is empty or starts with
    none of the characters a number can start with: a digit, a sign, a
    point, or the [I] of [Infinity]. *)
Definition lacks_number (s : string) : bool :=
  match trim_start s with
  | EmptyString => true
  | String c _ =>
      negb (is_digit c || (code c =? 43) || (code c =? 45) || (code c =? 46)
            || (code c =? 73))%N
  end.

(** * Properties *)

(** ** The built-ins at work *)

Example parseFloat_reads :
  Number.toString (parseFloat "  87.5 marks") = "87.5" /\
  Number.toString (parseFloat "-.5e1") = "-5" /\
  Number.toString (parseFloat "0.1") = "0.1" /\
  Number.toString (parseFloat "123456789012345678901234") = "1.2345678901234569e+23" /\
  Number.toString (parseFloat "0.00000012") = "1.2e-7" /\
  parseFloat "-0" = S754_zero true /\
  parseFloat "" = NaN /\
  parseFloat "marks" = NaN /\
  parseFloat "1e999" = Infinity /\
  parseFloat "-Infinity" = S754_infinity true.
Proof. by vm_compute. Qed.

Example assignment_order :
  map fst (set_property (set_property (set_property [] "b" Null) "10" Null)
             "2" Null)
  = ["2"; "10"; "b"].
Proof. by vm_compute. Qed.

Example ToString_converts :
  ToString (Arr [Num (parseFloat "1"); Null; Str "a"; Arr [Boolean true]])
  = Value "1,,a,true" /\
  ToString (Obj [("a", Null)]) = Value "[object Object]" /\
  ToString (Obj [("toString", Num zero)]) = Raised (TypeError cannot_convert).
Proof. by vm_compute. Qed.

(** ** Pages *)

Lemma lookup_set (m : gmap string element) (i : string) (x : element) :
  <[i := x]> m !! i = Some x.
Proof. apply lookup_insert_eq. Qed.

Lemma lookup_set_other (m : gmap string element) (i j : string) (x : element) :
  i <> j -> <[i := x]> m !! j = m !! j.
Proof. apply lookup_insert_ne. Qed.

Lemma present_intro id w el : elements w !! id = Some el -> present id w.
Proof. intros H. unfold present. by rewrite H. Qed.

Lemma write_present id t w el :
  elements w !! id = Some el ->
  write id t w
  = {| elements := <[id := {| textContent := t; classList := classList el |}]>
                     (elements w);
       history := SetTextContent id t :: history w |}.
Proof. intros H. unfold write, set_textContent. by rewrite H. Qed.

Lemma write_absent id t w : elements w !! id = None -> write id t w = w.
Proof. intros H. unfold write, set_textContent. by rewrite H. Qed.

Lemma retoken_present id ev f w el :
  elements w !! id = Some el ->
  retoken id ev f w
  = {| elements := <[id := {| textContent := textContent el;
                              classList := f (classList el) |}]> (elements w);
       history := ev :: history w |}.
Proof. intros H. unfold retoken, with_classList. by rewrite H. Qed.

Lemma retoken_absent id ev f w :
  elements w !! id = None -> retoken id ev f w = w.
Proof. intros H. unfold retoken, with_classList. by rewrite H. Qed.

Lemma shown_record id ev w : shown id (record ev w) = shown id w.
Proof. reflexivity. Qed.

Lemma classes_record id ev w : classes id (record ev w) = classes id w.
Proof. reflexivity. Qed.

Lemma history_record ev w : history (record ev w) = ev :: history w.
Proof. reflexivity. Qed.

Lemma present_record id ev w : present id w -> present id (record ev w).
Proof. done. Qed.

Lemma shown_write_same id t w : present id w -> shown id (write id t w) = Some t.
Proof.
  intros [el H]. rewrite (write_present _ _ _ _ H). unfold shown. simpl.
  by rewrite lookup_set.
Qed.

Lemma shown_write_other id id' t w :
  id <> id' -> shown id' (write id t w) = shown id' w.
Proof.
  intros Hne. destruct (elements w !! id) as [el|] eqn:H.
  - rewrite (write_present _ _ _ _ H). unfold shown. simpl.
    by rewrite lookup_set_other.
  - by rewrite write_absent.
Qed.

Lemma classes_write id id' t w : classes id' (write id t w) = classes id' w.
Proof.
  destruct (elements w !! id) as [el|] eqn:H; [|by rewrite write_absent].
  rewrite (write_present _ _ _ _ H). unfold classes. simpl.
  destruct (decide (id = id')) as [<-|Hne].
  - by rewrite lookup_set, H.
  - by rewrite lookup_set_other.
Qed.

Lemma history_write id t w :
  present id w -> history (write id t w) = SetTextContent id t :: history w.
Proof. intros [el H]. by rewrite (write_present _ _ _ _ H). Qed.

Lemma present_write id id' t w : present id' w -> present id' (write id t w).
Proof.
  intros Hp. destruct (elements w !! id) as [el|] eqn:H;
    [|by rewrite write_absent].
  rewrite (write_present _ _ _ _ H). unfold present. simpl.
  destruct (decide (id = id')) as [<-|Hne].
  - by rewrite lookup_set.
  - by rewrite lookup_set_other.
Qed.

Lemma shown_retoken id id' ev f w :
  shown id' (retoken id ev f w) = shown id' w.
Proof.
  destruct (elements w !! id) as [el|] eqn:H; [|by rewrite retoken_absent].
  rewrite (retoken_present _ _ _ _ _ H). unfold shown. simpl.
  destruct (decide (id = id')) as [<-|Hne].
  - by rewrite lookup_set, H.
  - by rewrite lookup_set_other.
Qed.

Lemma classes_retoken id ev f w :
  present id w -> classes id (retoken id ev f w) = f <$> classes id w.
Proof.
  intros [el H]. rewrite (retoken_present _ _ _ _ _ H). unfold classes. simpl.
  by rewrite lookup_set, H.
Qed.

Lemma history_retoken id ev f w :
  present id w -> history (retoken id ev f w) = ev :: history w.
Proof. intros [el H]. by rewrite (retoken_present _ _ _ _ _ H). Qed.

Lemma present_retoken id id' ev f w :
  present id' w -> present id' (retoken id ev f w).
Proof.
  intros Hp. destruct (elements w !! id) as [el|] eqn:H;
    [|by rewrite retoken_absent].
  rewrite (retoken_present _ _ _ _ _ H). unfold present. simpl.
  destruct (decide (id = id')) as [<-|Hne].
  - by rewrite lookup_set.
  - by rewrite lookup_set_other.
Qed.

(** An element that was there is still there. *)
Ltac presence :=
  repeat first [ apply present_write | apply present_retoken
               | apply present_record ];
  eauto using present_intro.

(** Evaluation of what a page shows after the end of a handler. *)
Ltac page :=
  unfold conclude, report, report_generic, events;
  cbn beta iota delta [fst snd];
  repeat first
    [ rewrite shown_record | rewrite classes_record | rewrite history_record
    | rewrite shown_retoken | rewrite classes_write
    | rewrite shown_write_same by presence
    | rewrite shown_write_other by done
    | rewrite classes_retoken by presence
    | rewrite history_write by presence
    | rewrite history_retoken by presence ].

(** ** Symbolic execution of the handlers *)

Ltac unfold_ops :=
  unfold fetch, preventDefault, console_error, classList_add, classList_remove;
  unfold bind, ret, throw, await, evaluate, try_catch, try_finally, emit,
    set_textContent, with_classList.

Ltac exec_step :=
  first
    [ progress cbn beta iota zeta
        delta [elements history fst snd textContent classList negb
               message name new_Error ToString is_undefined]
    | match goal with H : ?x = _ |- _ => rewrite H end
    | rewrite lookup_set
    | rewrite lookup_set_other by done ].

Ltac exec := repeat exec_step.

(** Case analysis on a scrutinee that holds no other. *)
Ltac fork :=
  match goal with
  | |- context [match ?x with _ => _ end] =>
      lazymatch x with
      | context [match _ with _ => _ end] => fail
      | _ => destruct x eqn:?
      end
  end.

Ltac run_handler := unfold_ops; exec; repeat (fork; exec).

Section Runs.

Variable net : Request -> completion Response.
Variable form : list (string * string).
Variable w : World.
Variables result_el error_el container_el : element.
Hypothesis Hresult : elements w !! "prediction-result" = Some result_el.
Hypothesis Herror : elements w !! "error-result" = Some error_el.
Hypothesis Hcontainer : elements w !! "result" = Some container_el.

Lemma submit_multipart_run :
  submit_multipart net form w
  = conclude (multipart_verdict (net (multipart_request form)))
      "prediction-result" (report "prediction-result") (fun w => w)
      (record (Fetch (multipart_request form))
         (write "prediction-result" "Processing..."
            (record PreventDefault w))).
Proof.
  unfold submit_multipart, multipart_verdict, display, fallback, settle,
    attempt, conclude, report, write, retoken, record.
  run_handler; done.
Qed.

Lemma submit_plain_run :
  submit_plain net form w
  = conclude (multipart_verdict (net (multipart_request form)))
      "prediction-result" (report "prediction-result") (fun w => w)
      (record (Fetch (multipart_request form)) (record PreventDefault w)).
Proof.
  unfold submit_plain, multipart_verdict, display, fallback, settle,
    attempt, conclude, report, write, retoken, record.
  run_handler; done.
Qed.

Lemma submit_error_element_run :
  submit_error_element net form w
  = conclude (error_element_verdict (net (multipart_request form)))
      "error-result" (report "error-result") (fun w => w)
      (record (Fetch (multipart_request form))
         (write "error-result" ""
            (write "prediction-result" "" (record PreventDefault w)))).
Proof.
  unfold submit_error_element, error_element_verdict, display, fallback,
    settle, attempt, conclude, report, write, retoken, record.
  run_handler; done.
Qed.

Lemma submit_json_run :
  submit_json net form w
  = conclude (json_verdict (net (json_request (jsonData form))))
      "prediction-result" report_generic
      (retoken "result" (ClassListRemove "result" "loading")
         (remove_token "loading"))
      (record (Fetch (json_request (jsonData form)))
         (retoken "result" (ClassListAdd "result" "loading")
            (add_token "loading")
            (write "prediction-result" "Processing..."
               (record PreventDefault w)))).
Proof.
  unfold submit_json, json_verdict, display, fallback, settle,
    attempt, conclude, report_generic, write, retoken, record.
  run_handler; done.
Qed.

End Runs.

(** ** Substrings *)

Lemma append_cons (c : ascii) (s t : string) :
  String c s ++ t = String c (s ++ t).
Proof. reflexivity. Qed.

Lemma append_empty_r (s : string) : s ++ "" = s.
Proof. induction s as [|c s IH]; [done|by rewrite append_cons, IH]. Qed.

Lemma append_assoc (a b c : string) : a ++ (b ++ c) = (a ++ b) ++ c.
Proof. induction a as [|x a IH]; [done|by rewrite !append_cons, IH]. Qed.

Lemma includes_suffix pre t : includes (pre ++ t) t.
Proof. exists pre, "". by rewrite append_empty_r. Qed.

Lemma prefix_app t post : String.prefix t (t ++ post) = true.
Proof.
  induction t as [|c t IH]; simpl; [by destruct post|].
  destruct (ascii_dec c c); [done|congruence].
Qed.

Lemma includes_includesb s t : includes s t -> includesb s t = true.
Proof.
  intros (pre & post & ->). induction pre as [|c pre IH].
  - pose proof (prefix_app t post) as H.
    change ("" ++ t ++ post) with (t ++ post).
    destruct (t ++ post); cbn [includesb]; rewrite H; done.
  - rewrite append_cons. cbn [includesb]. rewrite IH. apply orb_true_r.
Qed.

Lemma not_includes s t : includesb s t = false -> ~ includes s t.
Proof. intros H Hin. apply includes_includesb in Hin. congruence. Qed.

(** ** Verdicts *)

Lemma fallback_cases data default :
  (exists e, fallback data default = Caught e) \/
  (exists x, fallback data default = Refused ("Error: " ++ x)).
Proof.
  unfold fallback, attempt. destruct (Get data "error"); [|eauto].
  destruct (ToString _); eauto.
Qed.

Lemma fallback_refusal data default : refusal (fallback data default).
Proof.
  destruct (fallback_cases data default) as [[e ->]|[x ->]]; simpl; eauto.
Qed.

Lemma fallback_settled data default : fallback data default <> Hangs.
Proof. by destruct (fallback_cases data default) as [[e ->]|[x ->]]. Qed.

(** A block whose promises are settled does not wait. *)
Lemma multipart_settled o : settled o -> multipart_verdict o <> Hangs.
Proof.
  unfold multipart_verdict, display, settle, attempt.
  destruct o as [r| |]; [|done..]. intros [Htext Hjson].
  destruct (negb (ok r)); [by destruct (text r)|].
  destruct (json r) as [data| |]; [|done..].
  destruct (Get data "prediction") as [v|]; [|done].
  destruct (negb (is_undefined v)); [by destruct (ToString v)|].
  apply fallback_settled.
Qed.

Lemma error_element_settled o : settled o -> error_element_verdict o <> Hangs.
Proof.
  unfold error_element_verdict, display, settle, attempt.
  destruct o as [r| |]; [|done..]. intros [Htext Hjson].
  destruct (json r) as [data| |]; [|done..].
  destruct (negb (ok r)).
  { destruct (Get data "error"); [|done]. by destruct (ToString _). }
  destruct (Get data "prediction") as [v|]; [|done].
  destruct (negb (is_undefined v)); [by destruct (ToString v)|].
  apply fallback_settled.
Qed.

Lemma json_settled o : settled o -> json_verdict o <> Hangs.
Proof.
  unfold json_verdict, settle, attempt.
  destruct o as [r| |]; [|done..]. intros [Htext Hjson].
  destruct (negb (ok r)); [done|].
  destruct (json r) as [data| |]; [|done..].
  destruct (Get data "prediction") as [v|]; [|done].
  destruct (ToBoolean v); [by destruct (ToString v)|].
  apply fallback_settled.
Qed.

Lemma multipart_failure o :
  settled o -> failure o -> refusal (multipart_verdict o).
Proof.
  unfold multipart_verdict, display, settle, attempt.
  destruct o as [r| |]; [|done..]. intros [Htext Hjson] Hfail.
  destruct (ok r) eqn:Hok; simpl; [|by destruct (text r); simpl].
  destruct Hfail as [?|[[e He]|(data & Hdata & [Hget|[e Hget]])]];
    [congruence|by rewrite He|..]; rewrite Hdata, Hget; [|done].
  apply fallback_refusal.
Qed.

Lemma error_element_failure o :
  settled o -> failure o -> refusal (error_element_verdict o).
Proof.
  unfold error_element_verdict, display, settle, attempt.
  destruct o as [r| |]; [|done..]. intros [Htext Hjson] Hfail.
  destruct (json r) as [data| |] eqn:Hdata; [|done..].
  destruct (ok r) eqn:Hok; simpl.
  - destruct Hfail as [?|[[e He]|(data' & Hd & Hget)]]; [congruence..|].
    assert (data' = data) as -> by congruence.
    destruct Hget as [->|[e ->]]; [apply fallback_refusal|done].
  - destruct (Get data "error"); [|done]. by destruct (ToString _).
Qed.

Lemma json_failure o : settled o -> failure o -> refusal (json_verdict o).
Proof.
  unfold json_verdict, settle, attempt.
  destruct o as [r| |]; [|done..]. intros [Htext Hjson] Hfail.
  destruct (ok r) eqn:Hok; simpl; [|done].
  destruct Hfail as [?|[[e He]|(data & Hdata & [Hget|[e Hget]])]];
    [congruence|by rewrite He|..]; rewrite Hdata, Hget; [|done].
  apply fallback_refusal.
Qed.


(** A run never ends in a thrown error. *)
Lemma conclude_contained v target catch finally w e :
  fst (conclude v target catch finally w) <> Throw e.
Proof. by destruct v. Qed.

(** ** Display of a prediction *)

Section Prediction.

Variable net : Request -> completion Response.
Variable form : list (string * string).
Variable w : World.
Variables result_el error_el container_el : element.
Hypothesis Hresult : elements w !! "prediction-result" = Some result_el.
Hypothesis Herror : elements w !! "error-result" = Some error_el.
Hypothesis Hcontainer : elements w !! "result" = Some container_el.
Variables (r : Response) (data v : value) (s : string).
Hypothesis Hok : ok r = true.
Hypothesis Hjson : json r = Normal data.
Hypothesis Hget : Get data "prediction" = Value v.
Hypothesis Hstring : ToString v = Value s.

Lemma multipart_prediction :
  net (multipart_request form) = Normal r -> is_undefined v = false ->
  shown "prediction-result" (snd (submit_multipart net form w))
  = Some ("Prediction: " ++ s).
Proof.
  intros Hnet Hdefined. rewrite (submit_multipart_run _ _ _ _ Hresult).
  unfold multipart_verdict, display, settle, attempt. exec. by page.
Qed.

Lemma plain_prediction :
  net (multipart_request form) = Normal r -> is_undefined v = false ->
  shown "prediction-result" (snd (submit_plain net form w))
  = Some ("Prediction: " ++ s).
Proof.
  intros Hnet Hdefined. rewrite (submit_plain_run _ _ _ _ Hresult).
  unfold multipart_verdict, display, settle, attempt. exec. by page.
Qed.

Lemma error_element_prediction :
  net (multipart_request form) = Normal r -> is_undefined v = false ->
  shown "prediction-result" (snd (submit_error_element net form w))
  = Some ("Prediction: " ++ s) /\
  shown "error-result" (snd (submit_error_element net form w)) = Some "".
Proof.
  intros Hnet Hdefined.
  rewrite (submit_error_element_run _ _ _ _ _ Hresult Herror).
  unfold error_element_verdict, display, settle, attempt. exec. by page.
Qed.

(** The handler with the JSON body shows a prediction only if it is truthy. *)
Lemma json_prediction :
  net (json_request (jsonData form)) = Normal r -> ToBoolean v = true ->
  shown "prediction-result" (snd (submit_json net form w))
  = Some ("Predicted Final Marks: " ++ s).
Proof.
  intros Hnet Htruthy.
  rewrite (submit_json_run _ _ _ _ _ Hresult Hcontainer).
  unfold json_verdict, settle, attempt. exec. by page.
Qed.

End Prediction.

(** C1: a status-200 response with body [{"prediction": 0}] makes the
    handler with the JSON body show [Error: Unexpected error occurred]
    instead of [Predicted Final Marks: 0], because it tests the prediction
    for truthiness; the three other handlers, which compare it with
    [undefined], show [Prediction: 0]. *)
Theorem zero_prediction_shown_as_error :
  shown "prediction-result" (snd (submit_json zero_prediction alice (page "")))
  = Some "Error: Unexpected error occurred" /\
  shown "prediction-result"
    (snd (submit_multipart zero_prediction alice (page "")))
  = Some "Prediction: 0" /\
  shown "prediction-result" (snd (submit_plain zero_prediction alice (page "")))
  = Some "Prediction: 0" /\
  shown "prediction-result"
    (snd (submit_error_element zero_prediction alice (page "")))
  = Some "Prediction: 0".
Proof. vm_compute. done. Qed.

(** The scenario of the specification: [{ "prediction": 87.5 }]. *)
Example prediction_87_5 :
  shown "prediction-result"
    (snd (submit_multipart good_prediction alice (page "")))
  = Some "Prediction: 87.5" /\
  shown "prediction-result" (snd (submit_json good_prediction alice (page "")))
  = Some "Predicted Final Marks: 87.5".
Proof. vm_compute. done. Qed.

(** ** Display of a failed status *)

Section FailedStatus.

Variable net : Request -> completion Response.
Variable form : list (string * string).
Variable w : World.
Variables result_el error_el container_el : element.
Hypothesis Hresult : elements w !! "prediction-result" = Some result_el.
Hypothesis Herror : elements w !! "error-result" = Some error_el.
Hypothesis Hcontainer : elements w !! "result" = Some container_el.
Variable r : Response.
Hypothesis Hok : ok r = false.

Lemma multipart_failed_status raw :
  net (multipart_request form) = Normal r -> text r = Normal raw ->
  shown "prediction-result" (snd (submit_multipart net form w))
  = Some ("Error: HTTP error! Status: " ++ status_text r ++
          ", Message: " ++ raw).
Proof.
  intros Hnet Htext. rewrite (submit_multipart_run _ _ _ _ Hresult).
  unfold multipart_verdict, settle. exec. by page.
Qed.

Lemma plain_failed_status raw :
  net (multipart_request form) = Normal r -> text r = Normal raw ->
  shown "prediction-result" (snd (submit_plain net form w))
  = Some ("Error: HTTP error! Status: " ++ status_text r ++
          ", Message: " ++ raw).
Proof.
  intros Hnet Htext. rewrite (submit_plain_run _ _ _ _ Hresult).
  unfold multipart_verdict, settle. exec. by page.
Qed.

Lemma json_failed_status :
  net (json_request (jsonData form)) = Normal r ->
  shown "prediction-result" (snd (submit_json net form w))
  = Some generic_failure /\
  In (ConsoleError [LogStr "Error:"; LogStr ("HTTP Error: " ++ status_text r)])
     (events (snd (submit_json net form w))).
Proof.
  intros Hnet. rewrite (submit_json_run _ _ _ _ _ Hresult Hcontainer).
  unfold json_verdict, settle. exec. page. split; [done|].
  rewrite <- in_rev. simpl. auto.
Qed.

Lemma error_element_failed_status_error data e :
  net (multipart_request form) = Normal r -> json r = Normal data ->
  Get data "error" = Value (Str e) -> e <> "" ->
  shown "error-result" (snd (submit_error_element net form w))
  = Some ("Error: " ++ e).
Proof.
  intros Hnet Hjson Hget He.
  rewrite (submit_error_element_run _ _ _ _ _ Hresult Herror).
  assert (ToBoolean (Str e) = true) as Htruthy.
  { simpl. by destruct (String.eqb_spec e ""). }
  unfold error_element_verdict, settle, attempt, or_else. exec. by page.
Qed.

Lemma error_element_failed_status_code data err :
  net (multipart_request form) = Normal r -> json r = Normal data ->
  Get data "error" = Value err -> ToBoolean err = false ->
  shown "error-result" (snd (submit_error_element net form w))
  = Some ("Error: HTTP error! status: " ++ status_text r).
Proof.
  intros Hnet Hjson Hget He.
  rewrite (submit_error_element_run _ _ _ _ _ Hresult Herror).
  unfold error_element_verdict, settle, attempt, or_else. exec. by page.
Qed.

End FailedStatus.

(** C2, counterexample: for status 500 and body
    [{ "error": "model unavailable" }] the handler with the JSON body shows
    its fixed message, which holds neither the server's error string nor
    the status code. *)
Lemma failed_status_hidden_by_json_variant :
  exists t,
    shown "prediction-result"
      (snd (submit_json model_unavailable alice (page ""))) = Some t /\
    ~ includes t "model unavailable" /\ ~ includes t "500".
Proof.
  exists generic_failure. split; [by vm_compute|].
  split; apply not_includes; by vm_compute.
Qed.

(** C2, amended: for a response whose status is not a success, the two
    multipart handlers, once the body text is read, show [Error: HTTP
    error! Status: <status>, Message: <raw body>], which holds the status
    code and the body text; the handler with the error element, once the
    body has parsed, shows the [error] string of the body if it is a
    non-empty string and [Error: HTTP error! status: <status>] if it is
    falsy; the handler with the JSON body shows its fixed message and
    leaves the status code to the console. *)
Theorem failed_status_display
    (net : Request -> completion Response) (form : list (string * string))
    (w : World) (result_el error_el container_el : element)
    (r : Response) (raw : string) :
  elements w !! "prediction-result" = Some result_el ->
  elements w !! "error-result" = Some error_el ->
  elements w !! "result" = Some container_el ->
  ok r = false ->
  net (multipart_request form) = Normal r ->
  net (json_request (jsonData form)) = Normal r ->
  text r = Normal raw ->
  let message :=
    "Error: HTTP error! Status: " ++ status_text r ++ ", Message: " ++ raw in
  includes message (status_text r) /\ includes message raw /\
  shown "prediction-result" (snd (submit_multipart net form w)) = Some message /\
  shown "prediction-result" (snd (submit_plain net form w)) = Some message /\
  (forall data e,
     json r = Normal data -> Get data "error" = Value (Str e) -> e <> "" ->
     shown "error-result" (snd (submit_error_element net form w))
     = Some ("Error: " ++ e)) /\
  (forall data err,
     json r = Normal data -> Get data "error" = Value err ->
     ToBoolean err = false ->
     shown "error-result" (snd (submit_error_element net form w))
     = Some ("Error: HTTP error! status: " ++ status_text r)) /\
  shown "prediction-result" (snd (submit_json net form w))
  = Some generic_failure /\
  In (ConsoleError [LogStr "Error:"; LogStr ("HTTP Error: " ++ status_text r)])
     (events (snd (submit_json net form w))).
Proof.
  intros Hresult Herror Hcontainer Hok Hmulti Hjson Htext message.
  split; [by exists "Error: HTTP error! Status: ", (", Message: " ++ raw)|].
  split.
  { subst message. rewrite !append_assoc. apply includes_suffix. }
  split; [by eapply multipart_failed_status|].
  split; [by eapply plain_failed_status|].
  split; [intros; by eapply error_element_failed_status_error|].
  split; [intros; by eapply error_element_failed_status_code|].
  by eapply json_failed_status.
Qed.

Lemma failed_status_display_witness :
  shown "error-result"
    (snd (submit_error_element model_unavailable alice (page "")))
  = Some "Error: model unavailable".
Proof.
  pose proof (failed_status_display model_unavailable alice (page "")
                (blank "") (blank "") (blank "")
                (response_500 model_unavailable_body
                   (Normal (Obj [("error", Str "model unavailable")])))
                model_unavailable_body
                eq_refl eq_refl eq_refl eq_refl eq_refl eq_refl eq_refl)
    as (_ & _ & _ & _ & H & _).
  apply (H (Obj [("error", Str "model unavailable")]) "model unavailable");
    [reflexivity | reflexivity | discriminate].
Defined.

(** ** Display of a failed status with an unparsable body *)

(** C3, counterexample: for status 500 and a body that is not JSON the
    handler with the JSON body shows its fixed message, which does not hold
    [500]. *)
Lemma unparsable_500_hidden_by_json_variant :
  exists t,
    shown "prediction-result"
      (snd (submit_json server_error_page alice (page ""))) = Some t /\
    ~ includes t "500".
Proof.
  exists generic_failure. split; [by vm_compute|].
  apply not_includes. by vm_compute.
Qed.

(** C3, amended: for status 500 and a body that is not JSON, the two
    multipart handlers, once the body text is read, show [Error: HTTP
    error! Status: 500, Message: <raw body>], which holds [500], and the
    handler with the JSON body shows its fixed message. *)
Theorem unparsable_500_display
    (net : Request -> completion Response) (form : list (string * string))
    (w : World) (result_el container_el : element)
    (r : Response) (raw : string) (e : Error) :
  elements w !! "prediction-result" = Some result_el ->
  elements w !! "result" = Some container_el ->
  status r = 500%N ->
  json r = Throw e ->
  text r = Normal raw ->
  net (multipart_request form) = Normal r ->
  net (json_request (jsonData form)) = Normal r ->
  let message := "Error: HTTP error! Status: 500, Message: " ++ raw in
  includes message "500" /\
  shown "prediction-result" (snd (submit_multipart net form w)) = Some message /\
  shown "prediction-result" (snd (submit_plain net form w)) = Some message /\
  shown "prediction-result" (snd (submit_json net form w))
  = Some generic_failure.
Proof.
  intros Hresult Hcontainer Hstatus Hjson Htext Hmulti Hnet message.
  assert (ok r = false) as Hok by (unfold ok; by rewrite Hstatus).
  assert (status_text r = "500") as Hcode
    by (unfold status_text; by rewrite Hstatus).
  split; [by exists "Error: HTTP error! Status: ", (", Message: " ++ raw)|].
  subst message.
  change ("Error: HTTP error! Status: 500, Message: " ++ raw)
    with ("Error: HTTP error! Status: " ++ "500" ++ ", Message: " ++ raw).
  rewrite <- Hcode.
  split; [by eapply multipart_failed_status|].
  split; [by eapply plain_failed_status|].
  by eapply json_failed_status.
Qed.

Lemma unparsable_500_display_witness :
  shown "prediction-result"
    (snd (submit_multipart server_error_page alice (page "")))
  = Some "Error: HTTP error! Status: 500, Message: <html>Internal Server Error</html>".
Proof.
  apply (unparsable_500_display server_error_page alice (page "")
           (blank "") (blank "")
           (response_500 "<html>Internal Server Error</html>"
              (Throw (SyntaxError "Unexpected token '<'")))
           _ _ eq_refl eq_refl eq_refl eq_refl eq_refl eq_refl eq_refl).
Defined.

(** ** The JSON payload *)

Lemma assoc_update k v k' props :
  assoc k' (update k v props)
  = if String.eqb k' k then (fun _ => v) <$> assoc k props
    else assoc k' props.
Proof.
  induction props as [|[k0 a] props IH]; simpl.
  - by destruct (String.eqb k' k).
  - destruct (String.eqb_spec k k0) as [->|Hk]; simpl.
    + by destruct (String.eqb k' k0).
    + rewrite IH. destruct (String.eqb_spec k' k0) as [->|Hk0]; [|done].
      destruct (String.eqb_spec k0 k); [congruence|done].
Qed.

Lemma assoc_insert_index k v k' props :
  assoc k props = None ->
  assoc k' (insert_index k v props)
  = if String.eqb k' k then Some v else assoc k' props.
Proof.
  induction props as [|[k0 a] props IH]; simpl; [done|].
  destruct (String.eqb_spec k k0) as [->|Hk]; [done|]. intros Hnone.
  destruct (is_array_index k0 && (index_value k0 <? index_value k))%bool;
    simpl; [|done].
  rewrite IH by done.
  destruct (String.eqb_spec k' k0) as [->|]; [|done].
  destruct (String.eqb_spec k0 k); [congruence|done].
Qed.

Lemma assoc_snoc k (v : value) k' props :
  assoc k' (props ++ [(k, v)])%list
  = match assoc k' props with
    | Some a => Some a
    | None => if String.eqb k' k then Some v else None
    end.
Proof.
  induction props as [|[k0 a] props IH]; simpl; [done|].
  by destruct (String.eqb k' k0).
Qed.

Lemma assoc_set_property props k v k' :
  k <> "__proto__" ->
  assoc k' (set_property props k v)
  = if String.eqb k' k then Some v else assoc k' props.
Proof.
  intros Hk. unfold set_property.
  destruct (String.eqb_spec k "__proto__"); [done|].
  destruct (assoc k props) eqn:Hassoc.
  - rewrite assoc_update, Hassoc. done.
  - destruct (is_array_index k).
    + by apply assoc_insert_index.
    + rewrite assoc_snoc.
      destruct (String.eqb_spec k' k) as [->|]; [by rewrite Hassoc|].
      by destruct (assoc k' props).
Qed.

Lemma set_property_proto props v : set_property props "__proto__" v = props.
Proof. reflexivity. Qed.

Lemma assoc_fill key form : forall obj,
  key <> "__proto__" ->
  assoc key (fill obj form)
  = match last_value key form with
    | Some val => Some (coerce key val)
    | None => assoc key obj
    end.
Proof.
  induction form as [|[k v] form IH]; intros obj Hkey; [done|].
  change (fill obj ((k, v) :: form))
    with (fill (set_property obj k (coerce k v)) form).
  rewrite IH by done. cbn [last_value].
  destruct (last_value key form); [done|].
  destruct (String.eqb_spec key k) as [->|Hne].
  - rewrite assoc_set_property by done. by rewrite String.eqb_refl.
  - destruct (String.eqb_spec k "__proto__") as [->|Hk]; [done|].
    rewrite assoc_set_property by done.
    by destruct (String.eqb_spec key k).
Qed.

Lemma compare_cont_same m : Pos.compare_cont Eq m m = Eq.
Proof. induction m; simpl; done. Qed.

Lemma SFeqb_same x : isNaN x = false -> SFeqb x x = true.
Proof.
  destruct x as [s|s| |s m e]; try done; unfold SFeqb; simpl.
  - by destruct s.
  - destruct s; rewrite Z.compare_refl, compare_cont_same; done.
Qed.

(** What [parseFloat(value) || 0] comes to. *)
Lemma coerce_number key val :
  key <> "name" ->
  let p := parseFloat val in
  let x := if isNaN p || isZero p then zero else p in
  coerce key val = Num x /\
  isNaN x = false /\
  (isNaN p = true -> x = zero) /\
  (isNaN p = false -> SFeqb x p = true).
Proof.
  intros Hkey. cbv zeta. unfold coerce, or_else.
  destruct (String.eqb_spec key "name"); [done|].
  generalize (parseFloat val) as p. intros p.
  destruct p as [s|s| |s m e]; simpl; repeat split; try done; intros _.
  - by apply (SFeqb_same (S754_infinity s)).
  - by apply (SFeqb_same (S754_finite s m e)).
Qed.

(** C4, counterexample: a field named [__proto__] is not in the payload:
    the assignment goes to the inherited accessor, which drops a number. *)
Lemma proto_field_not_in_payload :
  last_value "__proto__" [("__proto__", "5")] = Some "5" /\
  assoc "__proto__" (jsonData [("__proto__", "5")]) = None /\
  JSON_stringify (Obj (jsonData [("__proto__", "5")])) = "{}".
Proof. by vm_compute. Qed.

(** C4, amended: for every form and every field name other than
    [__proto__], the payload maps the name to the value of the last field
    of that name: unchanged, as text, if the name is [name]; otherwise as
    the number [parseFloat] reads from it, with NaN and the two zeros
    replaced by [0], which is equal to the number read whenever one was
    read. *)
Theorem jsonData_field (form : list (string * string)) (key val : string) :
  last_value key form = Some val ->
  key <> "__proto__" ->
  (key = "name" -> assoc key (jsonData form) = Some (Str val)) /\
  (key <> "name" ->
   let p := parseFloat val in
   exists x,
     assoc key (jsonData form) = Some (Num x) /\
     x = (if isNaN p || isZero p then zero else p) /\
     (isNaN p = true -> x = zero) /\
     (isNaN p = false -> SFeqb x p = true)).
Proof.
  intros Hlast Hkey.
  assert (assoc key (jsonData form) = Some (coerce key val)) as Hfield.
  { change (jsonData form) with (fill [] form).
    by rewrite assoc_fill, Hlast. }
  split.
  - intros ->. by rewrite Hfield.
  - intros Hname p.
    destruct (coerce_number key val Hname) as (Hx & _ & Hnan & Heq).
    eexists. split; [by rewrite Hfield, Hx|]. split; done.
Qed.

Lemma jsonData_field_witness :
  assoc "name" (jsonData [("name", "Alice"); ("marks", "87.5")])
  = Some (Str "Alice") /\
  assoc "marks" (jsonData [("name", "Alice"); ("marks", "87.5")])
  = Some (Num (parseFloat "87.5")).
Proof.
  split.
  - apply (jsonData_field [("name", "Alice"); ("marks", "87.5")]
             "name" "Alice" eq_refl); [discriminate | reflexivity].
  - destruct (jsonData_field [("name", "Alice"); ("marks", "87.5")]
                "marks" "87.5" eq_refl) as [_ H]; [discriminate|].
    destruct H as (x & Hx & -> & _); [discriminate|]. exact Hx.
Defined.

(** *** Serialized numbers *)

Lemma string_of_uint_head d :
  exists c s, NilZero.string_of_uint d = String c s /\ is_digit c = true.
Proof. destruct d; simpl; eexists _, _; split; reflexivity. Qed.

Lemma digits_head z :
  exists c s, digits z = String c s /\ is_digit c = true.
Proof. apply string_of_uint_head. Qed.

Lemma format_decimal_head n k s :
  exists c t, format_decimal n k s = String c t /\ is_digit c = true.
Proof.
  unfold format_decimal.
  destruct (digits_head s) as (c & ds & -> & Hc).
  destruct ((-5 <=? n) && (n <=? 21))%bool.
  - destruct (k <=? n); [by eexists _, _|].
    destruct (Z.ltb_spec 0 n) as [Hn|Hn]; [|by eexists _, _].
    destruct (Z.to_nat n) as [|m] eqn:Hm; [lia|]. by eexists _, _.
  - destruct (k =? 1); by eexists _, _.
Qed.

Lemma toString_finite_head s m e :
  exists c t,
    Number.toString (S754_finite s m e) = String c t /\
    (c = "-"%char \/ is_digit c = true).
Proof.
  unfold Number.toString. destruct (shortest_decimal m e) as [[n k] d].
  destruct (format_decimal_head n k d) as (c & t & -> & Hc).
  destruct s; eexists _, _; split; try reflexivity; auto.
Qed.

Lemma toString_not_null x :
  isFinite x = true -> Number.toString x <> "null".
Proof.
  destruct x as [s|s| |s m e]; try done. intros _.
  destruct (toString_finite_head s m e) as (c & t & -> & [->|Hc]); [done|].
  intros [= -> _]. done.
Qed.

Lemma numeric_set_property props k val :
  numeric props -> numeric (set_property props k (coerce k val)).
Proof.
  intros Hprops k' v. destruct (String.eqb_spec k "__proto__") as [->|Hk].
  - rewrite set_property_proto. apply Hprops.
  - rewrite assoc_set_property by done.
    destruct (String.eqb_spec k' k) as [->|Hne]; [|apply Hprops].
    intros [= <-] Hname.
    destruct (coerce_number k val Hname) as (-> & Hnan & _). eauto.
Qed.

Lemma numeric_fill form : forall obj, numeric obj -> numeric (fill obj form).
Proof.
  induction form as [|[k v] form IH]; intros obj Hobj; [done|].
  apply IH. by apply numeric_set_property.
Qed.

(** C9, counterexample: the text [Infinity] (or [1e999]) in a field is
    read as an infinite number, which is truthy and so kept, and which
    JSON.stringify writes as [null]. *)
Lemma infinite_field_sent_as_null :
  let form := [("name", "Alice"); ("marks", "Infinity"); ("hours", "1e999")] in
  assoc "marks" (jsonData form) = Some (Num Infinity) /\
  assoc "hours" (jsonData form) = Some (Num Infinity) /\
  body (json_request (jsonData form))
  = TextBody ("{" ++ dquote ++ "name" ++ dquote ++ ":" ++
              dquote ++ "Alice" ++ dquote ++ "," ++
              dquote ++ "marks" ++ dquote ++ ":null," ++
              dquote ++ "hours" ++ dquote ++ ":null}").
Proof. by vm_compute. Qed.

(** C9, amended: every entry of the payload other than [name] is a number
    and is not NaN; JSON.stringify writes it as the decimal text of the
    number if it is finite and as [null] if it is infinite, and only then. *)
Theorem jsonData_numbers (form : list (string * string)) (key : string) (v : value) :
  assoc key (jsonData form) = Some v ->
  key <> "name" ->
  exists x,
    v = Num x /\ isNaN x = false /\
    SerializeJSONProperty v
    = Some (if isFinite x then Number.toString x else "null") /\
    (SerializeJSONProperty v = Some "null" <-> isFinite x = false).
Proof.
  intros Hfield Hname.
  assert (numeric []) as Hempty by (intros k u; discriminate).
  destruct (numeric_fill form [] Hempty key v Hfield Hname)
    as (x & -> & Hnan).
  exists x. repeat split; [done|..]; simpl.
  - destruct (isFinite x) eqn:Hfin; [|done].
    intros [= H]. by apply toString_not_null in H.
  - by intros ->.
Qed.

Lemma jsonData_numbers_witness :
  exists x,
    Num (parseFloat "87.5") = Num x /\ isNaN x = false /\
    SerializeJSONProperty (Num (parseFloat "87.5"))
    = Some (if isFinite x then Number.toString x else "null") /\
    (SerializeJSONProperty (Num (parseFloat "87.5")) = Some "null"
     <-> isFinite x = false).
Proof.
  apply (jsonData_numbers [("name", "Alice"); ("marks", "87.5")] "marks");
    [reflexivity | discriminate].
Defined.

(** ** The loading class *)

Lemma contains_remove cls l : contains cls (remove_token cls l) = false.
Proof.
  induction l as [|c l IH]; [done|]. unfold remove_token in *. simpl.
  destruct (String.eqb cls c) eqn:Hc; simpl; [done|by rewrite Hc].
Qed.

(** C5: in the handler with the loading class, whenever the handler
    completes, it completes normally and the class list of the container
    does not hold [loading]; and it completes whenever the request and the
    reading of its body settle: with a prediction, a failed status, a body
    that does not parse or an unreachable network. *)
Theorem loading_class_cleared
    (net : Request -> completion Response) (form : list (string * string))
    (w : World) (result_el container_el : element) :
  elements w !! "prediction-result" = Some result_el ->
  elements w !! "result" = Some container_el ->
  (fst (submit_json net form w) <> Pending ->
   fst (submit_json net form w) = Normal tt /\
   exists l,
     classes "result" (snd (submit_json net form w)) = Some l /\
     contains "loading" l = false) /\
  (settled (net (json_request (jsonData form))) ->
   fst (submit_json net form w) <> Pending).
Proof.
  intros Hresult Hcontainer.
  rewrite (submit_json_run _ _ _ _ _ Hresult Hcontainer).
  split.
  - destruct (json_verdict _) as [t|t|e|]; [..|done]; intros _.
    all: split; [done|]; page; unfold classes; rewrite Hcontainer.
    all: eexists; split; [reflexivity|]; apply contains_remove.
  - intros Hsettled. apply json_settled in Hsettled.
    by destruct (json_verdict _).
Qed.

Lemma loading_class_cleared_witness :
  fst (submit_json unreachable alice (page "")) = Normal tt /\
  exists l,
    classes "result" (snd (submit_json unreachable alice (page ""))) = Some l /\
    contains "loading" l = false.
Proof.
  apply (loading_class_cleared unreachable alice (page "") (blank "") (blank ""));
    [reflexivity | reflexivity | discriminate].
Defined.

(** While the request is pending the class stays. *)
Lemma loading_class_kept_while_pending
    (net : Request -> completion Response) (form : list (string * string))
    (w : World) (result_el container_el : element) :
  elements w !! "prediction-result" = Some result_el ->
  elements w !! "result" = Some container_el ->
  net (json_request (jsonData form)) = Pending ->
  fst (submit_json net form w) = Pending /\
  shown "prediction-result" (snd (submit_json net form w))
  = Some "Processing..." /\
  classes "result" (snd (submit_json net form w))
  = Some (add_token "loading" (classList container_el)).
Proof.
  intros Hresult Hcontainer Hnet.
  rewrite (submit_json_run _ _ _ _ _ Hresult Hcontainer), Hnet.
  unfold json_verdict, settle. page. unfold classes. by rewrite Hcontainer.
Qed.

(** ** Failures stay inside the handler *)

(** C6: with the page elements in place, no handler ends in a thrown
    error, whatever the network does; and when the promises settle on a
    failure (unreachable network, failed status, body that is not JSON,
    body without prediction) the handler completes normally with
    [Error: ...] in its display element (the error element where there is
    one), or with the fixed message in the handler with the JSON body. *)
Theorem failures_stay_in_handler
    (net : Request -> completion Response) (form : list (string * string))
    (w : World) (result_el error_el container_el : element) :
  elements w !! "prediction-result" = Some result_el ->
  elements w !! "error-result" = Some error_el ->
  elements w !! "result" = Some container_el ->
  let o := net (multipart_request form) in
  let o' := net (json_request (jsonData form)) in
  (forall e, fst (submit_multipart net form w) <> Throw e) /\
  (forall e, fst (submit_plain net form w) <> Throw e) /\
  (forall e, fst (submit_error_element net form w) <> Throw e) /\
  (forall e, fst (submit_json net form w) <> Throw e) /\
  (settled o -> failure o ->
   fst (submit_multipart net form w) = Normal tt /\
   exists x, shown "prediction-result" (snd (submit_multipart net form w))
             = Some ("Error: " ++ x)) /\
  (settled o -> failure o ->
   fst (submit_plain net form w) = Normal tt /\
   exists x, shown "prediction-result" (snd (submit_plain net form w))
             = Some ("Error: " ++ x)) /\
  (settled o -> failure o ->
   fst (submit_error_element net form w) = Normal tt /\
   exists x, shown "error-result" (snd (submit_error_element net form w))
             = Some ("Error: " ++ x)) /\
  (settled o' -> failure o' ->
   fst (submit_json net form w) = Normal tt /\
   (shown "prediction-result" (snd (submit_json net form w))
    = Some generic_failure \/
    exists x, shown "prediction-result" (snd (submit_json net form w))
              = Some ("Error: " ++ x))).
Proof.
  intros Hresult Herror Hcontainer o o'.
  rewrite (submit_multipart_run _ _ _ _ Hresult),
    (submit_plain_run _ _ _ _ Hresult),
    (submit_error_element_run _ _ _ _ _ Hresult Herror),
    (submit_json_run _ _ _ _ _ Hresult Hcontainer).
  fold o o'.
  do 4 (split; [intros e; apply conclude_contained|]).
  split; [|split; [|split]]; intros Hsettled Hfailure.
  - apply multipart_failure in Hfailure; [|done].
    destruct (multipart_verdict o) as [t|t|e|]; try done.
    + destruct Hfailure as [x ->]. page. eauto.
    + page. eauto.
  - apply multipart_failure in Hfailure; [|done].
    destruct (multipart_verdict o) as [t|t|e|]; try done.
    + destruct Hfailure as [x ->]. page. eauto.
    + page. eauto.
  - apply error_element_failure in Hfailure; [|done].
    destruct (error_element_verdict o) as [t|t|e|]; try done.
    + destruct Hfailure as [x ->]. page. eauto.
    + page. eauto.
  - apply json_failure in Hfailure; [|done].
    destruct (json_verdict o') as [t|t|e|]; try done.
    + destruct Hfailure as [x ->]. page. eauto.
    + page. eauto.
Qed.

Lemma failures_stay_in_handler_witness :
  fst (submit_multipart unreachable alice (page "")) = Normal tt /\
  exists x, shown "prediction-result"
              (snd (submit_multipart unreachable alice (page "")))
            = Some ("Error: " ++ x).
Proof.
  pose proof (failures_stay_in_handler unreachable alice (page "")
                (blank "") (blank "") (blank "") eq_refl eq_refl eq_refl)
    as (_ & _ & _ & _ & H & _).
  apply H; exact I.
Defined.

(** ** Before the request *)

(** C7, counterexample: the third handler of static/script.js requests
    the prediction without touching the display, which still shows the
    text of the previous submission; the handler with the error element
    empties both displays instead. *)
Lemma no_processing_text_before_request :
  events (snd (submit_plain good_prediction alice (page "Prediction: 42")))
  = [PreventDefault; Fetch (multipart_request alice);
     SetTextContent "prediction-result" "Prediction: 87.5"] /\
  events (snd (submit_error_element good_prediction alice
                 (page "Prediction: 42")))
  = [PreventDefault; SetTextContent "prediction-result" "";
     SetTextContent "error-result" ""; Fetch (multipart_request alice);
     SetTextContent "prediction-result" "Prediction: 87.5"] /\
  ~ In (SetTextContent "prediction-result" "Processing...")
       (events (snd (submit_plain good_prediction alice
                       (page "Prediction: 42")))) /\
  ~ In (SetTextContent "prediction-result" "Processing...")
       (events (snd (submit_error_element good_prediction alice
                       (page "Prediction: 42")))).
Proof.
  split; [by vm_compute|]. split; [by vm_compute|].
  split; vm_compute; intros H; repeat destruct H as [H|H]; done.
Qed.

(** The events of a run, oldest first, as an extension of the earlier ones. *)
Ltac trace :=
  page;
  repeat match goal with
         | |- context [rev (?a :: ?l)] =>
             change (rev (a :: l)) with (rev l ++ [a])%list
         end;
  rewrite <- ?app_assoc; cbn [app].

(** C7, amended: on every submission the first handler and the handler
    with the JSON body set the result display to [Processing...] before
    they issue the POST request to /predict (the latter then adds the
    loading class); the handler with the error element sets both displays
    to the empty text before the request; the third handler issues the
    request first of all. *)
Theorem display_before_request
    (net : Request -> completion Response) (form : list (string * string))
    (w : World) (result_el error_el container_el : element) :
  elements w !! "prediction-result" = Some result_el ->
  elements w !! "error-result" = Some error_el ->
  elements w !! "result" = Some container_el ->
  (exists rest,
     events (snd (submit_multipart net form w))
     = (events w ++
        [PreventDefault; SetTextContent "prediction-result" "Processing...";
         Fetch (multipart_request form)] ++ rest)%list) /\
  (exists rest,
     events (snd (submit_json net form w))
     = (events w ++
        [PreventDefault; SetTextContent "prediction-result" "Processing...";
         ClassListAdd "result" "loading";
         Fetch (json_request (jsonData form))] ++ rest)%list) /\
  (exists rest,
     events (snd (submit_error_element net form w))
     = (events w ++
        [PreventDefault; SetTextContent "prediction-result" "";
         SetTextContent "error-result" "";
         Fetch (multipart_request form)] ++ rest)%list) /\
  (exists rest,
     events (snd (submit_plain net form w))
     = (events w ++
        [PreventDefault; Fetch (multipart_request form)] ++ rest)%list).
Proof.
  intros Hresult Herror Hcontainer.
  rewrite (submit_multipart_run _ _ _ _ Hresult),
    (submit_plain_run _ _ _ _ Hresult),
    (submit_error_element_run _ _ _ _ _ Hresult Herror),
    (submit_json_run _ _ _ _ _ Hresult Hcontainer).
  split; [|split; [|split]].
  - destruct (multipart_verdict _) as [t|t|e|]; trace; by eexists.
  - destruct (json_verdict _) as [t|t|e|]; trace; by eexists.
  - destruct (error_element_verdict _) as [t|t|e|]; trace; by eexists.
  - destruct (multipart_verdict _) as [t|t|e|]; trace; by eexists.
Qed.

Lemma display_before_request_witness :
  exists rest,
    events (snd (submit_multipart good_prediction alice (page "")))
    = (events (page "") ++
       [PreventDefault; SetTextContent "prediction-result" "Processing...";
        Fetch (multipart_request alice)] ++ rest)%list.
Proof.
  apply (display_before_request good_prediction alice (page "")
           (blank "") (blank "") (blank "") eq_refl eq_refl eq_refl).
Defined.

(** ** The same inputs give the same display *)

Section SameDisplay.

Variable net : Request -> completion Response.
Variable form : list (string * string).
Hypothesis Hsettled : settled (net (multipart_request form)).
Hypothesis Hsettled' : settled (net (json_request (jsonData form))).

(** What the elements show after a settled run does not depend on the
    page before it. *)
Lemma display_independent_of_page (w1 w2 : World) :
  present "prediction-result" w1 -> present "error-result" w1 ->
  present "result" w1 ->
  present "prediction-result" w2 -> present "error-result" w2 ->
  present "result" w2 ->
  shown "prediction-result" (snd (submit_multipart net form w1))
  = shown "prediction-result" (snd (submit_multipart net form w2)) /\
  shown "prediction-result" (snd (submit_json net form w1))
  = shown "prediction-result" (snd (submit_json net form w2)) /\
  shown "prediction-result" (snd (submit_plain net form w1))
  = shown "prediction-result" (snd (submit_plain net form w2)) /\
  shown "prediction-result" (snd (submit_error_element net form w1))
  = shown "prediction-result" (snd (submit_error_element net form w2)) /\
  shown "error-result" (snd (submit_error_element net form w1))
  = shown "error-result" (snd (submit_error_element net form w2)).
Proof.
  intros [r1 Hresult1] [e1 Herror1] [c1 Hcontainer1]
         [r2 Hresult2] [e2 Herror2] [c2 Hcontainer2].
  rewrite !(submit_multipart_run _ _ _ _ Hresult1),
    !(submit_multipart_run _ _ _ _ Hresult2),
    !(submit_plain_run _ _ _ _ Hresult1),
    !(submit_plain_run _ _ _ _ Hresult2),
    !(submit_error_element_run _ _ _ _ _ Hresult1 Herror1),
    !(submit_error_element_run _ _ _ _ _ Hresult2 Herror2),
    !(submit_json_run _ _ _ _ _ Hresult1 Hcontainer1),
    !(submit_json_run _ _ _ _ _ Hresult2 Hcontainer2).
  pose proof (multipart_settled _ Hsettled) as Hm.
  pose proof (error_element_settled _ Hsettled) as He.
  pose proof (json_settled _ Hsettled') as Hj.
  split; [|split; [|split; [|split]]].
  - destruct (multipart_verdict _) as [t|t|e|]; [..|done]; by page.
  - destruct (json_verdict _) as [t|t|e|]; [..|done]; by page.
  - destruct (multipart_verdict _) as [t|t|e|]; [..|done]; by page.
  - destruct (error_element_verdict _) as [t|t|e|]; [..|done]; by page.
  - destruct (error_element_verdict _) as [t|t|e|]; [..|done]; by page.
Qed.

(** The elements are still there after a run, so it can be repeated. *)
Lemma elements_kept (w : World) (id : string) :
  present "prediction-result" w -> present "error-result" w ->
  present "result" w -> present id w ->
  present id (snd (submit_multipart net form w)) /\
  present id (snd (submit_json net form w)) /\
  present id (snd (submit_plain net form w)) /\
  present id (snd (submit_error_element net form w)).
Proof.
  intros [r Hresult] [e Herror] [c Hcontainer] Hid.
  rewrite (submit_multipart_run _ _ _ _ Hresult),
    (submit_plain_run _ _ _ _ Hresult),
    (submit_error_element_run _ _ _ _ _ Hresult Herror),
    (submit_json_run _ _ _ _ _ Hresult Hcontainer).
  split; [|split; [|split]].
  - destruct (multipart_verdict _); page; presence.
  - destruct (json_verdict _); page; presence.
  - destruct (multipart_verdict _); page; presence.
  - destruct (error_element_verdict _); page; presence.
Qed.

End SameDisplay.

(** C8: two submissions of the same fields that get the same settled
    answer from the network show the same text: in every handler the text
    of the result element (and, where there is one, of the error element)
    after the run is the same on any two pages, whatever they showed
    before; in particular a second submission on the page the first one
    left shows what the first one showed. *)
Theorem same_inputs_same_display
    (net : Request -> completion Response) (form : list (string * string))
    (w1 w2 : World) (result1 error1 container1 result2 error2 container2 : element) :
  elements w1 !! "prediction-result" = Some result1 ->
  elements w1 !! "error-result" = Some error1 ->
  elements w1 !! "result" = Some container1 ->
  elements w2 !! "prediction-result" = Some result2 ->
  elements w2 !! "error-result" = Some error2 ->
  elements w2 !! "result" = Some container2 ->
  settled (net (multipart_request form)) ->
  settled (net (json_request (jsonData form))) ->
  (shown "prediction-result" (snd (submit_multipart net form w1))
   = shown "prediction-result" (snd (submit_multipart net form w2)) /\
   shown "prediction-result" (snd (submit_json net form w1))
   = shown "prediction-result" (snd (submit_json net form w2)) /\
   shown "prediction-result" (snd (submit_plain net form w1))
   = shown "prediction-result" (snd (submit_plain net form w2)) /\
   shown "prediction-result" (snd (submit_error_element net form w1))
   = shown "prediction-result" (snd (submit_error_element net form w2)) /\
   shown "error-result" (snd (submit_error_element net form w1))
   = shown "error-result" (snd (submit_error_element net form w2))) /\
  (shown "prediction-result"
     (snd (submit_multipart net form (snd (submit_multipart net form w1))))
   = shown "prediction-result" (snd (submit_multipart net form w1)) /\
   shown "prediction-result"
     (snd (submit_json net form (snd (submit_json net form w1))))
   = shown "prediction-result" (snd (submit_json net form w1)) /\
   shown "prediction-result"
     (snd (submit_plain net form (snd (submit_plain net form w1))))
   = shown "prediction-result" (snd (submit_plain net form w1)) /\
   shown "prediction-result"
     (snd (submit_error_element net form
             (snd (submit_error_element net form w1))))
   = shown "prediction-result" (snd (submit_error_element net form w1)) /\
   shown "error-result"
     (snd (submit_error_element net form
             (snd (submit_error_element net form w1))))
   = shown "error-result" (snd (submit_error_element net form w1))).
Proof.
  intros Hr1%present_intro He1%present_intro Hc1%present_intro
         Hr2%present_intro He2%present_intro Hc2%present_intro Hs Hs'.
  split; [by apply display_independent_of_page|].
  pose proof (elements_kept net form w1 _ Hr1 He1 Hc1 Hr1) as (Ha & Hb & Hc & Hd).
  pose proof (elements_kept net form w1 _ Hr1 He1 Hc1 He1) as (Ha' & Hb' & Hc' & Hd').
  pose proof (elements_kept net form w1 _ Hr1 He1 Hc1 Hc1) as (Ha'' & Hb'' & Hc'' & Hd'').
  split; [|split; [|split; [|split]]].
  - by apply (display_independent_of_page net form Hs Hs'
                (snd (submit_multipart net form w1)) w1).
  - by apply (display_independent_of_page net form Hs Hs'
                (snd (submit_json net form w1)) w1).
  - by apply (display_independent_of_page net form Hs Hs'
                (snd (submit_plain net form w1)) w1).
  - by apply (display_independent_of_page net form Hs Hs'
                (snd (submit_error_element net form w1)) w1).
  - by apply (display_independent_of_page net form Hs Hs'
                (snd (submit_error_element net form w1)) w1).
Qed.

Lemma same_inputs_same_display_witness :
  shown "prediction-result"
    (snd (submit_plain good_prediction alice (page "Prediction: 42")))
  = shown "prediction-result"
      (snd (submit_plain good_prediction alice (page ""))).
Proof.
  pose proof (same_inputs_same_display good_prediction alice
                (page "Prediction: 42") (page "")
                (blank "Prediction: 42") (blank "") (blank "")
                (blank "") (blank "") (blank "")
                eq_refl eq_refl eq_refl eq_refl eq_refl eq_refl)
    as H.
  destruct H as [(_ & _ & H & _) _]; [split; discriminate..|exact H].
Defined.

(** ** The handler with the error element *)




(** * Further properties of the handlers *)

(** ** What every step of a handler preserves *)

Section Preservation.

Variable R : World -> World -> Prop.
Hypothesis R_refl : forall w, R w w.
Hypothesis R_trans : forall w1 w2 w3, R w1 w2 -> R w2 w3 -> R w1 w3.
Hypothesis R_request : forall req w, R w (record (Fetch req) w).
Hypothesis R_log : forall args w, R w (record (ConsoleError args) w).
Hypothesis R_result : forall t w, R w (write "prediction-result" t w).
Hypothesis R_error : forall t w, R w (write "error-result" t w).
Hypothesis R_add :
  forall w, R w (retoken "result" (ClassListAdd "result" "loading")
                   (add_token "loading") w).
Hypothesis R_remove :
  forall w, R w (retoken "result" (ClassListRemove "result" "loading")
                   (remove_token "loading") w).

Lemma preserves_ret {A} (a : A) : preserves R (ret a).
Proof. intros w. apply R_refl. Qed.

Lemma preserves_throw {A} e : preserves R (@throw A e).
Proof. intros w. apply R_refl. Qed.

Lemma preserves_await {A} (c : completion A) : preserves R (await c).
Proof. intros w. apply R_refl. Qed.

Lemma preserves_evaluate {A} (r : result A) : preserves R (evaluate r).
Proof. intros w. apply R_refl. Qed.

Lemma preserves_request req : preserves R (emit (Fetch req)).
Proof. intros w. apply R_request. Qed.

Lemma preserves_log args : preserves R (emit (ConsoleError args)).
Proof. intros w. apply R_log. Qed.

Lemma preserves_result t : preserves R (set_textContent "prediction-result" t).
Proof. intros w. apply R_result. Qed.

Lemma preserves_error t : preserves R (set_textContent "error-result" t).
Proof. intros w. apply R_error. Qed.

Lemma preserves_add : preserves R (classList_add "result" "loading").
Proof. intros w. apply R_add. Qed.

Lemma preserves_remove : preserves R (classList_remove "result" "loading").
Proof. intros w. apply R_remove. Qed.

Lemma preserves_bind {A B} (m : M A) (k : A -> M B) :
  preserves R m -> (forall a, preserves R (k a)) -> preserves R (bind m k).
Proof.
  intros Hm Hk w. unfold bind. specialize (Hm w).
  destruct (m w) as [[a|e|] w1]; simpl in *; [|done..].
  eapply R_trans; [done|apply Hk].
Qed.

Lemma preserves_try_catch {A} (block : M A) handler :
  preserves R block -> (forall e, preserves R (handler e)) ->
  preserves R (try_catch block handler).
Proof.
  intros Hb Hh w. unfold try_catch. specialize (Hb w).
  destruct (block w) as [[a|e|] w1]; simpl in *; [done| |done].
  eapply R_trans; [done|apply Hh].
Qed.

Lemma preserves_try_finally {A} (block : M A) cleanup :
  preserves R block -> preserves R cleanup ->
  preserves R (try_finally block cleanup).
Proof.
  intros Hb Hc w. unfold try_finally. specialize (Hb w).
  destruct (block w) as [[a|e|] w1]; simpl in *; [| |done].
  all: specialize (Hc w1); destruct (cleanup w1) as [[[]|e'|] w2]; simpl in *.
  all: by eapply R_trans.
Qed.

Ltac preserve :=
  repeat match goal with
         | |- preserves _ (ret _) => apply preserves_ret
         | |- preserves _ (throw _) => apply preserves_throw
         | |- preserves _ (await _) => apply preserves_await
         | |- preserves _ (evaluate _) => apply preserves_evaluate
         | |- preserves _ (emit (Fetch _)) => apply preserves_request
         | |- preserves _ (emit (ConsoleError _)) => apply preserves_log
         | |- preserves _ (set_textContent "prediction-result" _) =>
             apply preserves_result
         | |- preserves _ (set_textContent "error-result" _) =>
             apply preserves_error
         | |- preserves _ (classList_add "result" "loading") =>
             apply preserves_add
         | |- preserves _ (classList_remove "result" "loading") =>
             apply preserves_remove
         | |- preserves _ (try_finally _ _) => apply preserves_try_finally
         | |- preserves _ (try_catch _ _) =>
             apply preserves_try_catch; [|intros ?]
         | |- preserves _ (bind _ _) => apply preserves_bind; [|intros ?]
         | |- preserves _ (if ?b then _ else _) => destruct b
         end.

(** What follows [event.preventDefault()] starts from the page with that
    event recorded. *)
Lemma preserves_after_preventDefault {A} (k : M A) w :
  preserves R k -> R (record PreventDefault w) (snd ((preventDefault >> k) w)).
Proof. intros Hk. apply (Hk (record PreventDefault w)). Qed.

Variable net : Request -> completion Response.
Variable form : list (string * string).

Lemma multipart_preserves w :
  R (record PreventDefault w) (snd (submit_multipart net form w)).
Proof.
  apply preserves_after_preventDefault.
  unfold fetch, console_error. cbv zeta. preserve.
Qed.

Lemma json_preserves w :
  R (record PreventDefault w) (snd (submit_json net form w)).
Proof.
  apply preserves_after_preventDefault.
  unfold fetch, console_error. cbv zeta. preserve.
Qed.

Lemma plain_preserves w :
  R (record PreventDefault w) (snd (submit_plain net form w)).
Proof.
  apply preserves_after_preventDefault.
  unfold fetch, console_error. cbv zeta. preserve.
Qed.

Lemma error_element_preserves w :
  R (record PreventDefault w) (snd (submit_error_element net form w)).
Proof.
  apply preserves_after_preventDefault.
  unfold fetch, console_error. cbv zeta. preserve.
Qed.

End Preservation.

(** ** The history only grows *)

Lemma extends_refl w : extends w w.
Proof. by exists []. Qed.

Lemma extends_trans w1 w2 w3 : extends w1 w2 -> extends w2 w3 -> extends w1 w3.
Proof.
  intros [l1 H1] [l2 H2]. exists (l2 ++ l1)%list.
  by rewrite H2, H1, app_assoc.
Qed.

Lemma extends_record ev w : extends w (record ev w).
Proof. by exists [ev]. Qed.

Lemma extends_write id t w : extends w (write id t w).
Proof.
  destruct (elements w !! id) as [el|] eqn:H.
  - rewrite (write_present _ _ _ _ H). by exists [SetTextContent id t].
  - rewrite write_absent by done. apply extends_refl.
Qed.

Lemma extends_retoken id ev f w : extends w (retoken id ev f w).
Proof.
  destruct (elements w !! id) as [el|] eqn:H.
  - rewrite (retoken_present _ _ _ _ _ H). by exists [ev].
  - rewrite retoken_absent by done. apply extends_refl.
Qed.

Lemma extends_events ev w w' :
  extends (record ev w) w' -> exists rest, events w' = (events w ++ ev :: rest)%list.
Proof.
  intros [later H]. exists (rev later). unfold events. rewrite H. simpl.
  by rewrite rev_app_distr; simpl; rewrite <- app_assoc.
Qed.

(** X1: on any page, with or without the elements the script looks for,
    and whatever the network does, every handler first prevents the default
    submission of the form, and nothing of what happened before is lost:
    the events after the run are the events before it, then
    [preventDefault], then the rest. *)
Theorem prevent_default_first
    (net : Request -> completion Response) (form : list (string * string))
    (w : World) :
  (exists rest, events (snd (submit_multipart net form w))
                = (events w ++ PreventDefault :: rest)%list) /\
  (exists rest, events (snd (submit_json net form w))
                = (events w ++ PreventDefault :: rest)%list) /\
  (exists rest, events (snd (submit_plain net form w))
                = (events w ++ PreventDefault :: rest)%list) /\
  (exists rest, events (snd (submit_error_element net form w))
                = (events w ++ PreventDefault :: rest)%list).
Proof.
  split; [|split; [|split]]; apply extends_events.
  - apply multipart_preserves; intros;
      first [ apply extends_refl | by eapply extends_trans
            | apply extends_record | apply extends_write ].
  - apply json_preserves; intros;
      first [ apply extends_refl | by eapply extends_trans
            | apply extends_record | apply extends_write
            | apply extends_retoken ].
  - apply plain_preserves; intros;
      first [ apply extends_refl | by eapply extends_trans
            | apply extends_record | apply extends_write ].
  - apply error_element_preserves; intros;
      first [ apply extends_refl | by eapply extends_trans
            | apply extends_record | apply extends_write ].
Qed.

(** ** The elements a handler acts on *)

Lemma lookup_retoken_other id id' ev f w :
  id <> id' -> elements (retoken id ev f w) !! id' = elements w !! id'.
Proof.
  intros Hne. destruct (elements w !! id) as [el|] eqn:H.
  - rewrite (retoken_present _ _ _ _ _ H). simpl. by rewrite lookup_set_other.
  - by rewrite retoken_absent.
Qed.

Lemma present_write_back id id' t w : present id' (write id t w) -> present id' w.
Proof.
  destruct (elements w !! id) as [el|] eqn:H; [|by rewrite write_absent].
  rewrite (write_present _ _ _ _ H). unfold present. simpl.
  destruct (decide (id = id')) as [<-|Hne].
  - by rewrite H.
  - by rewrite lookup_set_other.
Qed.

Lemma present_retoken_back id id' ev f w :
  present id' (retoken id ev f w) -> present id' w.
Proof.
  destruct (elements w !! id) as [el|] eqn:H; [|by rewrite retoken_absent].
  rewrite (retoken_present _ _ _ _ _ H). unfold present. simpl.
  destruct (decide (id = id')) as [<-|Hne].
  - by rewrite H.
  - by rewrite lookup_set_other.
Qed.

(** The events of [w'] are those of [w] and then some that all are [P]. *)
Lemma only_refl (P : event -> Prop) w :
  exists later, history w = (later ++ history w)%list /\ Forall P later.
Proof. by exists []. Qed.

Lemma only_trans (P : event -> Prop) w1 w2 w3 :
  (exists later, history w2 = (later ++ history w1)%list /\ Forall P later) ->
  (exists later, history w3 = (later ++ history w2)%list /\ Forall P later) ->
  exists later, history w3 = (later ++ history w1)%list /\ Forall P later.
Proof.
  intros (l1 & H1 & HP1) (l2 & H2 & HP2). exists (l2 ++ l1)%list.
  split; [by rewrite H2, H1, app_assoc|by apply Forall_app].
Qed.

Lemma only_record (P : event -> Prop) ev w :
  P ev ->
  exists later, history (record ev w) = (later ++ history w)%list /\
                Forall P later.
Proof. intros HP. exists [ev]. split; [done|by constructor]. Qed.

Lemma only_write (P : event -> Prop) id t w :
  P (SetTextContent id t) ->
  exists later, history (write id t w) = (later ++ history w)%list /\
                Forall P later.
Proof.
  intros HP. destruct (elements w !! id) as [el|] eqn:H.
  - rewrite (write_present _ _ _ _ H). exists [SetTextContent id t].
    split; [done|by constructor].
  - rewrite write_absent by done. by exists [].
Qed.

Lemma only_retoken (P : event -> Prop) id ev f w :
  P ev ->
  exists later, history (retoken id ev f w) = (later ++ history w)%list /\
                Forall P later.
Proof.
  intros HP. destruct (elements w !! id) as [el|] eqn:H.
  - rewrite (retoken_present _ _ _ _ _ H). exists [ev].
    split; [done|by constructor].
  - rewrite retoken_absent by done. by exists [].
Qed.

Lemma only_events (P : event -> Prop) w w' :
  P PreventDefault ->
  (exists later,
     history w' = (later ++ history (record PreventDefault w))%list /\
     Forall P later) ->
  exists later, events w' = (events w ++ later)%list /\ Forall P later.
Proof.
  intros HP (later & H & Hlater). exists (PreventDefault :: rev later).
  split.
  - unfold events. rewrite H. simpl.
    by rewrite rev_app_distr; simpl; rewrite <- app_assoc.
  - constructor; [done|]. by apply Forall_rev.
Qed.

(** X2: a handler acts on no element other than its own, on any page and
    whatever the network does: among the events a run adds, every
    assignment of a text is to the result element (or, in the handler with
    the error element, to the error element), and the only changes of a
    class list are those of the container in the handler with the JSON
    body. *)
Theorem handlers_act_on_own_elements
    (net : Request -> completion Response) (form : list (string * string))
    (w : World) :
  (exists later,
     events (snd (submit_multipart net form w)) = (events w ++ later)%list /\
     Forall (own ["prediction-result"] []) later) /\
  (exists later,
     events (snd (submit_json net form w)) = (events w ++ later)%list /\
     Forall (own ["prediction-result"] ["result"]) later) /\
  (exists later,
     events (snd (submit_plain net form w)) = (events w ++ later)%list /\
     Forall (own ["prediction-result"] []) later) /\
  (exists later,
     events (snd (submit_error_element net form w))
     = (events w ++ later)%list /\
     Forall (own ["prediction-result"; "error-result"] []) later).
Proof.
  split; [|split; [|split]]; apply only_events; try done.
  - apply (multipart_preserves
             (fun w w' => exists later,
                history w' = (later ++ history w)%list /\
                Forall (own ["prediction-result"] []) later)); intros;
      first [ apply only_refl | by eapply only_trans
            | by apply only_record | apply only_write; simpl; tauto ].
  - apply (json_preserves
             (fun w w' => exists later,
                history w' = (later ++ history w)%list /\
                Forall (own ["prediction-result"] ["result"]) later)); intros;
      first [ apply only_refl | by eapply only_trans
            | by apply only_record | apply only_write; simpl; tauto
            | apply only_retoken; simpl; tauto ].
  - apply (plain_preserves
             (fun w w' => exists later,
                history w' = (later ++ history w)%list /\
                Forall (own ["prediction-result"] []) later)); intros;
      first [ apply only_refl | by eapply only_trans
            | by apply only_record | apply only_write; simpl; tauto ].
  - apply (error_element_preserves
             (fun w w' => exists later,
                history w' = (later ++ history w)%list /\
                Forall (own ["prediction-result"; "error-result"] []) later));
      intros;
      first [ apply only_refl | by eapply only_trans
            | by apply only_record | apply only_write; simpl; tauto ].
Qed.

(** X3: a handler neither creates nor removes an element, and the three
    handlers without a loading class change no class list: on any page and
    whatever the network does, an element is found after the run if and
    only if it was found before, and its class list is the same after the
    first handler, the third and the one with the error element; the
    handler with the JSON body changes no class list but the
    container's. *)
Theorem elements_and_class_lists_kept
    (net : Request -> completion Response) (form : list (string * string))
    (w : World) (id : string) :
  (present id (snd (submit_multipart net form w)) <-> present id w) /\
  (present id (snd (submit_json net form w)) <-> present id w) /\
  (present id (snd (submit_plain net form w)) <-> present id w) /\
  (present id (snd (submit_error_element net form w)) <-> present id w) /\
  classes id (snd (submit_multipart net form w)) = classes id w /\
  classes id (snd (submit_plain net form w)) = classes id w /\
  classes id (snd (submit_error_element net form w)) = classes id w /\
  (id <> "result" ->
   classes id (snd (submit_json net form w)) = classes id w).
Proof.
  pose (P := fun w w' : World => present id w' <-> present id w).
  assert (forall w, P w w) as Prefl by done.
  assert (forall w1 w2 w3, P w1 w2 -> P w2 w3 -> P w1 w3) as Ptrans
    by (unfold P; intros * H1 H2; by rewrite H2).
  assert (forall ev w, P w (record ev w)) as Precord by done.
  assert (forall i t w, P w (write i t w)) as Pwrite
    by (split; [apply present_write_back|apply present_write]).
  assert (forall i ev f w, P w (retoken i ev f w)) as Pretoken
    by (split; [apply present_retoken_back|apply present_retoken]).
  pose (C := fun w w' : World => classes id w' = classes id w).
  assert (forall w, C w w) as Crefl by done.
  assert (forall w1 w2 w3, C w1 w2 -> C w2 w3 -> C w1 w3) as Ctrans
    by (unfold C; congruence).
  assert (forall ev w, C w (record ev w)) as Crecord by done.
  assert (forall i t w, C w (write i t w)) as Cwrite
    by (intros; apply classes_write).
  split; [by apply (multipart_preserves P)|].
  split; [by apply (json_preserves P)|].
  split; [by apply (plain_preserves P)|].
  split; [by apply (error_element_preserves P)|].
  split; [by apply (multipart_preserves C)|].
  split; [by apply (plain_preserves C)|].
  split; [by apply (error_element_preserves C)|].
  intros Hid. apply (json_preserves C); try done.
  all: intros; unfold C, classes; rewrite lookup_retoken_other; congruence.
Qed.

Lemma elements_and_class_lists_kept_witness :
  classes "prediction-result" (snd (submit_json unreachable alice (page "")))
  = classes "prediction-result" (page "").
Proof.
  destruct (elements_and_class_lists_kept unreachable alice (page "")
              "prediction-result") as (_ & _ & _ & _ & _ & _ & _ & H).
  apply H. discriminate.
Defined.

(** ** A page without the elements the script looks for *)

Lemma events_record ev w : events (record ev w) = (events w ++ [ev])%list.
Proof. reflexivity. Qed.

Section MissingElements.

Variable net : Request -> completion Response.
Variable form : list (string * string).
Variable w : World.

Lemma submit_multipart_without_result :
  elements w !! "prediction-result" = None ->
  submit_multipart net form w
  = (Throw (TypeError (cannot_set "textContent")), record PreventDefault w).
Proof. intros H. unfold submit_multipart, record. by run_handler. Qed.

Lemma submit_json_without_result :
  elements w !! "prediction-result" = None ->
  submit_json net form w
  = (Throw (TypeError (cannot_set "textContent")), record PreventDefault w).
Proof. intros H. unfold submit_json, record. by run_handler. Qed.

Lemma submit_error_element_without_result :
  elements w !! "prediction-result" = None ->
  submit_error_element net form w
  = (Throw (TypeError (cannot_set "textContent")), record PreventDefault w).
Proof. intros H. unfold submit_error_element, record. by run_handler. Qed.

Lemma submit_json_without_container result_el :
  elements w !! "prediction-result" = Some result_el ->
  elements w !! "result" = None ->
  submit_json net form w
  = (Throw (TypeError (cannot_read "classList" "null")),
     write "prediction-result" "Processing..." (record PreventDefault w)).
Proof.
  intros Hresult Hcontainer. unfold submit_json, write, record.
  by run_handler.
Qed.

Lemma submit_error_element_without_error result_el :
  elements w !! "prediction-result" = Some result_el ->
  elements w !! "error-result" = None ->
  submit_error_element net form w
  = (Throw (TypeError (cannot_set "textContent")),
     write "prediction-result" "" (record PreventDefault w)).
Proof.
  intros Hresult Herror. unfold submit_error_element, write, record.
  by run_handler.
Qed.

(** The third handler meets the missing element in its [try] block, and
    again in its [catch] block. *)
Lemma submit_plain_without_result :
  elements w !! "prediction-result" = None ->
  let requested :=
    record (Fetch (multipart_request form)) (record PreventDefault w) in
  let failed := TypeError (cannot_set "textContent") in
  submit_plain net form w
  = match multipart_verdict (net (multipart_request form)) with
    | Predicted _ | Refused _ =>
        (Throw failed,
         record (ConsoleError [LogStr "Error:"; LogErr failed]) requested)
    | Caught e =>
        (Throw failed,
         record (ConsoleError [LogStr "Error:"; LogErr e]) requested)
    | Hangs => (Pending, requested)
    end.
Proof.
  intros H. cbv zeta.
  unfold submit_plain, multipart_verdict, display, fallback, settle, attempt,
    record.
  run_handler; done.
Qed.

End MissingElements.

(** X4: on a page without the result element, the first handler, the
    handler with the JSON body and the handler with the error element stop
    at their first assignment: the run ends in a TypeError outside the
    [try] block, nothing is requested and nothing is logged; only the
    default submission has been prevented. *)
Theorem missing_result_element_stops_handler
    (net : Request -> completion Response) (form : list (string * string))
    (w : World) :
  elements w !! "prediction-result" = None ->
  let stopped :=
    (Throw (TypeError (cannot_set "textContent")), record PreventDefault w) in
  submit_multipart net form w = stopped /\
  submit_json net form w = stopped /\
  submit_error_element net form w = stopped /\
  requests (events (snd stopped)) = requests (events w) /\
  logs (events (snd stopped)) = logs (events w) /\
  elements (snd stopped) = elements w.
Proof.
  intros H stopped.
  split; [by apply submit_multipart_without_result|].
  split; [by apply submit_json_without_result|].
  split; [by apply submit_error_element_without_result|].
  subst stopped. cbn [snd]. rewrite events_record. unfold requests, logs.
  rewrite !omap_app. simpl. by rewrite !app_nil_r.
Qed.

Lemma missing_result_element_stops_handler_witness :
  submit_multipart good_prediction alice empty_page
  = (Throw (TypeError "Cannot set properties of null (setting 'textContent')"),
     record PreventDefault empty_page).
Proof.
  apply (missing_result_element_stops_handler good_prediction alice empty_page).
  reflexivity.
Defined.

(** X5: on a page without the result element the third handler, which
    assigns nothing before the request, does send the request; once the
    answer is settled the assignment fails inside the [try] block or the
    error of the request is caught, the [catch] block logs that error, and
    its own assignment fails in turn: the run ends in a TypeError, with one
    request sent and one console entry made, and no element changed. *)
Theorem plain_missing_result_element
    (net : Request -> completion Response) (form : list (string * string))
    (w : World) :
  elements w !! "prediction-result" = None ->
  settled (net (multipart_request form)) ->
  fst (submit_plain net form w) = Throw (TypeError (cannot_set "textContent")) /\
  elements (snd (submit_plain net form w)) = elements w /\
  exists e,
    events (snd (submit_plain net form w))
    = (events w ++
       [PreventDefault; Fetch (multipart_request form);
        ConsoleError [LogStr "Error:"; LogErr e]])%list.
Proof.
  intros H Hsettled. rewrite submit_plain_without_result by done. cbv zeta.
  apply multipart_settled in Hsettled.
  destruct (multipart_verdict _) as [t|t|e|]; [..|done].
  all: split; [done|]; split; [done|]; eexists; cbn [snd].
  all: rewrite !events_record, <- !app_assoc; reflexivity.
Qed.

Lemma plain_missing_result_element_witness :
  fst (submit_plain good_prediction alice empty_page)
  = Throw (TypeError "Cannot set properties of null (setting 'textContent')").
Proof.
  apply (plain_missing_result_element good_prediction alice empty_page).
  - reflexivity.
  - split; discriminate.
Defined.

(** X6: on a page with the result element but without its container, the
    handler with the JSON body stops when it reaches for the class list:
    the run ends in a TypeError outside the [try] block, so neither the
    [catch] nor the [finally] block runs, nothing is requested, and the
    result element is left showing [Processing...]. *)
Theorem missing_container_leaves_processing
    (net : Request -> completion Response) (form : list (string * string))
    (w : World) (result_el : element) :
  elements w !! "prediction-result" = Some result_el ->
  elements w !! "result" = None ->
  fst (submit_json net form w)
  = Throw (TypeError (cannot_read "classList" "null")) /\
  shown "prediction-result" (snd (submit_json net form w))
  = Some "Processing..." /\
  events (snd (submit_json net form w))
  = (events w ++
     [PreventDefault; SetTextContent "prediction-result" "Processing..."])%list.
Proof.
  intros Hresult Hcontainer.
  rewrite (submit_json_without_container _ _ _ _ Hresult Hcontainer).
  split; [done|]. split; [by page|]. by trace.
Qed.

Lemma missing_container_leaves_processing_witness :
  shown "prediction-result"
    (snd (submit_json good_prediction alice result_only_page))
  = Some "Processing...".
Proof.
  apply (missing_container_leaves_processing good_prediction alice
           result_only_page (blank "")); reflexivity.
Defined.

(** X7: on a page with the result element but without the error element,
    the handler with the error element empties the result element and
    stops at the assignment to the error element: the run ends in a
    TypeError outside the [try] block and nothing is requested. *)
Theorem missing_error_element_stops_handler
    (net : Request -> completion Response) (form : list (string * string))
    (w : World) (result_el : element) :
  elements w !! "prediction-result" = Some result_el ->
  elements w !! "error-result" = None ->
  fst (submit_error_element net form w)
  = Throw (TypeError (cannot_set "textContent")) /\
  shown "prediction-result" (snd (submit_error_element net form w)) = Some "" /\
  events (snd (submit_error_element net form w))
  = (events w ++ [PreventDefault; SetTextContent "prediction-result" ""])%list.
Proof.
  intros Hresult Herror.
  rewrite (submit_error_element_without_error _ _ _ _ Hresult Herror).
  split; [done|]. split; [by page|]. by trace.
Qed.

Lemma missing_error_element_stops_handler_witness :
  shown "prediction-result"
    (snd (submit_error_element good_prediction alice result_only_page))
  = Some "".
Proof.
  apply (missing_error_element_stops_handler good_prediction alice
           result_only_page (blank "")); reflexivity.
Defined.

(** ** What is shown for each answer *)

(** X8: for a successful response whose body parses to an object with a
    [prediction], the first handler, the third and the one with the error
    element show [Prediction: <prediction>] whenever the prediction is not
    [undefined] (so also for [null], [false], [0] or the empty text), the
    error element staying empty; the handler with the JSON body shows
    [Predicted Final Marks: <prediction>] whenever the prediction is
    truthy. Nothing is logged: the events of the run are exactly the
    preparation, the request and the assignment. *)
Theorem prediction_display
    (net : Request -> completion Response) (form : list (string * string))
    (w : World) (result_el error_el container_el : element)
    (r : Response) (data v : value) (s : string) :
  elements w !! "prediction-result" = Some result_el ->
  elements w !! "error-result" = Some error_el ->
  elements w !! "result" = Some container_el ->
  net (multipart_request form) = Normal r ->
  net (json_request (jsonData form)) = Normal r ->
  ok r = true ->
  json r = Normal data ->
  Get data "prediction" = Value v ->
  ToString v = Value s ->
  (is_undefined v = false ->
   events (snd (submit_multipart net form w))
   = (events w ++
      [PreventDefault; SetTextContent "prediction-result" "Processing...";
       Fetch (multipart_request form);
       SetTextContent "prediction-result" ("Prediction: " ++ s)])%list /\
   events (snd (submit_plain net form w))
   = (events w ++
      [PreventDefault; Fetch (multipart_request form);
       SetTextContent "prediction-result" ("Prediction: " ++ s)])%list /\
   events (snd (submit_error_element net form w))
   = (events w ++
      [PreventDefault; SetTextContent "prediction-result" "";
       SetTextContent "error-result" ""; Fetch (multipart_request form);
       SetTextContent "prediction-result" ("Prediction: " ++ s)])%list /\
   shown "prediction-result" (snd (submit_multipart net form w))
   = Some ("Prediction: " ++ s) /\
   shown "prediction-result" (snd (submit_plain net form w))
   = Some ("Prediction: " ++ s) /\
   shown "prediction-result" (snd (submit_error_element net form w))
   = Some ("Prediction: " ++ s) /\
   shown "error-result" (snd (submit_error_element net form w)) = Some "") /\
  (ToBoolean v = true ->
   events (snd (submit_json net form w))
   = (events w ++
      [PreventDefault; SetTextContent "prediction-result" "Processing...";
       ClassListAdd "result" "loading"; Fetch (json_request (jsonData form));
       SetTextContent "prediction-result" ("Predicted Final Marks: " ++ s);
       ClassListRemove "result" "loading"])%list /\
   shown "prediction-result" (snd (submit_json net form w))
   = Some ("Predicted Final Marks: " ++ s)).
Proof.
  intros Hresult Herror Hcontainer Hmulti Hnet Hok Hjson Hget Hstring.
  rewrite (submit_multipart_run _ _ _ _ Hresult),
    (submit_plain_run _ _ _ _ Hresult),
    (submit_error_element_run _ _ _ _ _ Hresult Herror),
    (submit_json_run _ _ _ _ _ Hresult Hcontainer).
  unfold multipart_verdict, error_element_verdict, json_verdict, display,
    settle, attempt.
  split; intros Hv; exec.
  - repeat split; first [by trace | by page].
  - repeat split; first [by trace | by page].
Qed.

Lemma prediction_display_witness :
  shown "prediction-result" (snd (submit_multipart null_prediction alice (page "")))
  = Some "Prediction: null".
Proof.
  destruct (prediction_display null_prediction alice (page "")
              (blank "") (blank "") (blank "")
              {| status := 200;
                 text := Normal ("{" ++ dquote ++ "prediction" ++ dquote ++
                                 ": null}");
                 json := Normal (Obj [("prediction", Null)]) |}
              (Obj [("prediction", Null)]) Null "null"
              eq_refl eq_refl eq_refl eq_refl eq_refl eq_refl eq_refl eq_refl
              eq_refl) as [H _].
  apply H. reflexivity.
Defined.

(** X9: for a successful response whose body parses but holds no
    [prediction], the first and the third handler show in the result
    element, and the handler with the error element in the error element,
    [Error: No prediction available] if the body's [error] is missing or
    falsy, and [Error: <error>] otherwise; the result element of the
    handler with the error element stays empty, and nothing is logged. *)
Theorem missing_prediction_display
    (net : Request -> completion Response) (form : list (string * string))
    (w : World) (result_el error_el : element)
    (r : Response) (data err : value) :
  elements w !! "prediction-result" = Some result_el ->
  elements w !! "error-result" = Some error_el ->
  net (multipart_request form) = Normal r ->
  ok r = true ->
  json r = Normal data ->
  Get data "prediction" = Value Undefined ->
  Get data "error" = Value err ->
  let shows (t : string) :=
    shown "prediction-result" (snd (submit_multipart net form w)) = Some t /\
    shown "prediction-result" (snd (submit_plain net form w)) = Some t /\
    shown "error-result" (snd (submit_error_element net form w)) = Some t /\
    shown "prediction-result" (snd (submit_error_element net form w))
    = Some "" /\
    logs (events (snd (submit_multipart net form w))) = logs (events w) /\
    logs (events (snd (submit_plain net form w))) = logs (events w) /\
    logs (events (snd (submit_error_element net form w))) = logs (events w) in
  (ToBoolean err = false -> shows "Error: No prediction available") /\
  (forall s, ToBoolean err = true -> ToString err = Value s ->
             shows ("Error: " ++ s)).
Proof.
  intros Hresult Herror Hnet Hok Hjson Hget Hget' shows. subst shows.
  cbv beta.
  rewrite (submit_multipart_run _ _ _ _ Hresult),
    (submit_plain_run _ _ _ _ Hresult),
    (submit_error_element_run _ _ _ _ _ Hresult Herror).
  unfold multipart_verdict, error_element_verdict, display, fallback, settle,
    attempt, or_else, logs.
  split; [intros Herr|intros s Herr Hs]; exec.
  all: repeat split; first [by page | by trace; rewrite omap_app, app_nil_r].
Qed.

Lemma missing_prediction_display_witness :
  shown "prediction-result" (snd (submit_plain empty_object alice (page "")))
  = Some "Error: No prediction available".
Proof.
  destruct (missing_prediction_display empty_object alice (page "")
              (blank "") (blank "")
              {| status := 200; text := Normal "{}"; json := Normal (Obj []) |}
              (Obj []) Undefined
              eq_refl eq_refl eq_refl eq_refl eq_refl eq_refl eq_refl)
    as [H _].
  apply H. reflexivity.
Defined.

(** X10: in the handler with the JSON body a prediction that is falsy
    ([0], NaN, the empty text, [false], [null] or none at all) is never
    shown: for a successful response with such a prediction it shows
    [Error: Unexpected error occurred] if the body's [error] is missing or
    falsy, and [Error: <error>] otherwise; nothing is logged, and the
    loading class is removed. *)
Theorem falsy_prediction_display
    (net : Request -> completion Response) (form : list (string * string))
    (w : World) (result_el container_el : element)
    (r : Response) (data v err : value) :
  elements w !! "prediction-result" = Some result_el ->
  elements w !! "result" = Some container_el ->
  net (json_request (jsonData form)) = Normal r ->
  ok r = true ->
  json r = Normal data ->
  Get data "prediction" = Value v ->
  ToBoolean v = false ->
  Get data "error" = Value err ->
  let shows (t : string) :=
    events (snd (submit_json net form w))
    = (events w ++
       [PreventDefault; SetTextContent "prediction-result" "Processing...";
        ClassListAdd "result" "loading"; Fetch (json_request (jsonData form));
        SetTextContent "prediction-result" t;
        ClassListRemove "result" "loading"])%list /\
    shown "prediction-result" (snd (submit_json net form w)) = Some t in
  (ToBoolean err = false -> shows "Error: Unexpected error occurred") /\
  (forall s, ToBoolean err = true -> ToString err = Value s ->
             shows ("Error: " ++ s)).
Proof.
  intros Hresult Hcontainer Hnet Hok Hjson Hget Hv Hget' shows. subst shows.
  cbv beta.
  rewrite (submit_json_run _ _ _ _ _ Hresult Hcontainer).
  unfold json_verdict, fallback, settle, attempt, or_else.
  split; [intros Herr|intros s Herr Hs]; exec.
  all: split; [by trace|by page].
Qed.

Lemma falsy_prediction_display_witness :
  shown "prediction-result" (snd (submit_json null_prediction alice (page "")))
  = Some "Error: Unexpected error occurred".
Proof.
  destruct (falsy_prediction_display null_prediction alice (page "")
              (blank "") (blank "")
              {| status := 200;
                 text := Normal ("{" ++ dquote ++ "prediction" ++ dquote ++
                                 ": null}");
                 json := Normal (Obj [("prediction", Null)]) |}
              (Obj [("prediction", Null)]) Null Undefined
              eq_refl eq_refl eq_refl eq_refl eq_refl eq_refl eq_refl eq_refl)
    as [H _].
  apply H. reflexivity.
Defined.

(** ** What is shown for each failure *)

(** X11: when the request itself fails (the promise of [fetch] is
    rejected with [e]), each handler logs once and shows once: the first
    and the third handler log [e] and show [Error: <message of e>] in the
    result element, the handler with the error element shows it in the
    error element and leaves the result element empty, and the handler with
    the JSON body logs the message of [e] (or [e] itself if its message is
    empty), shows its fixed text and removes the loading class. *)
Theorem rejected_request_display
    (net : Request -> completion Response) (form : list (string * string))
    (w : World) (result_el error_el container_el : element) (e : Error) :
  elements w !! "prediction-result" = Some result_el ->
  elements w !! "error-result" = Some error_el ->
  elements w !! "result" = Some container_el ->
  net (multipart_request form) = Throw e ->
  net (json_request (jsonData form)) = Throw e ->
  events (snd (submit_multipart net form w))
  = (events w ++
     [PreventDefault; SetTextContent "prediction-result" "Processing...";
      Fetch (multipart_request form);
      ConsoleError [LogStr "Error:"; LogErr e];
      SetTextContent "prediction-result" ("Error: " ++ message e)])%list /\
  events (snd (submit_plain net form w))
  = (events w ++
     [PreventDefault; Fetch (multipart_request form);
      ConsoleError [LogStr "Error:"; LogErr e];
      SetTextContent "prediction-result" ("Error: " ++ message e)])%list /\
  events (snd (submit_error_element net form w))
  = (events w ++
     [PreventDefault; SetTextContent "prediction-result" "";
      SetTextContent "error-result" ""; Fetch (multipart_request form);
      ConsoleError [LogStr "Error:"; LogErr e];
      SetTextContent "error-result" ("Error: " ++ message e)])%list /\
  events (snd (submit_json net form w))
  = (events w ++
     [PreventDefault; SetTextContent "prediction-result" "Processing...";
      ClassListAdd "result" "loading"; Fetch (json_request (jsonData form));
      ConsoleError [LogStr "Error:";
                    if String.eqb (message e) "" then LogErr e
                    else LogStr (message e)];
      SetTextContent "prediction-result" generic_failure;
      ClassListRemove "result" "loading"])%list /\
  shown "prediction-result" (snd (submit_multipart net form w))
  = Some ("Error: " ++ message e) /\
  shown "prediction-result" (snd (submit_plain net form w))
  = Some ("Error: " ++ message e) /\
  shown "error-result" (snd (submit_error_element net form w))
  = Some ("Error: " ++ message e) /\
  shown "prediction-result" (snd (submit_error_element net form w))
  = Some "" /\
  shown "prediction-result" (snd (submit_json net form w))
  = Some generic_failure.
Proof.
  intros Hresult Herror Hcontainer Hmulti Hnet.
  rewrite (submit_multipart_run _ _ _ _ Hresult),
    (submit_plain_run _ _ _ _ Hresult),
    (submit_error_element_run _ _ _ _ _ Hresult Herror),
    (submit_json_run _ _ _ _ _ Hresult Hcontainer), Hmulti, Hnet.
  unfold multipart_verdict, error_element_verdict, json_verdict, settle.
  repeat split; first [by trace | by page].
Qed.

Lemma rejected_request_display_witness :
  shown "prediction-result" (snd (submit_plain unreachable alice (page "")))
  = Some "Error: Failed to fetch".
Proof.
  apply (rejected_request_display unreachable alice (page "")
           (blank "") (blank "") (blank "") (TypeError "Failed to fetch")
           eq_refl eq_refl eq_refl eq_refl eq_refl).
Defined.

(** X12: a body that does not parse (the promise of [response.json()] is
    rejected with [e]) is reported with the parser's message: by the first
    and the third handler for a successful status, as
    [Error: <message of e>] in the result element; by the handler with the
    error element for every status, since it parses the body before it
    looks at the status, in the error element; the handler with the JSON
    body shows its fixed text for it. *)
Theorem unparsable_body_display
    (net : Request -> completion Response) (form : list (string * string))
    (w : World) (result_el error_el container_el : element)
    (r : Response) (e : Error) :
  elements w !! "prediction-result" = Some result_el ->
  elements w !! "error-result" = Some error_el ->
  elements w !! "result" = Some container_el ->
  net (multipart_request form) = Normal r ->
  net (json_request (jsonData form)) = Normal r ->
  json r = Throw e ->
  (shown "error-result" (snd (submit_error_element net form w))
   = Some ("Error: " ++ message e) /\
   shown "prediction-result" (snd (submit_error_element net form w))
   = Some "" /\
   logs (events (snd (submit_error_element net form w)))
   = (logs (events w) ++ [[LogStr "Error:"; LogErr e]])%list) /\
  (ok r = true ->
   shown "prediction-result" (snd (submit_multipart net form w))
   = Some ("Error: " ++ message e) /\
   shown "prediction-result" (snd (submit_plain net form w))
   = Some ("Error: " ++ message e) /\
   shown "prediction-result" (snd (submit_json net form w))
   = Some generic_failure /\
   logs (events (snd (submit_multipart net form w)))
   = (logs (events w) ++ [[LogStr "Error:"; LogErr e]])%list /\
   logs (events (snd (submit_plain net form w)))
   = (logs (events w) ++ [[LogStr "Error:"; LogErr e]])%list /\
   logs (events (snd (submit_json net form w)))
   = (logs (events w) ++
      [[LogStr "Error:";
        if String.eqb (message e) "" then LogErr e
        else LogStr (message e)]])%list).
Proof.
  intros Hresult Herror Hcontainer Hmulti Hnet Hjson.
  rewrite (submit_multipart_run _ _ _ _ Hresult),
    (submit_plain_run _ _ _ _ Hresult),
    (submit_error_element_run _ _ _ _ _ Hresult Herror),
    (submit_json_run _ _ _ _ _ Hresult Hcontainer), Hmulti, Hnet.
  unfold multipart_verdict, error_element_verdict, json_verdict, settle, logs.
  rewrite Hjson. split; [|intros ->; cbn [negb]].
  all: repeat split; first [by page | by trace; rewrite omap_app].
Qed.

Lemma unparsable_body_display_witness :
  shown "error-result"
    (snd (submit_error_element server_error_page alice (page "")))
  = Some "Error: Unexpected token '<'".
Proof.
  destruct (unparsable_body_display server_error_page alice (page "")
              (blank "") (blank "") (blank "")
              (response_500 "<html>Internal Server Error</html>"
                 (Throw (SyntaxError "Unexpected token '<'")))
              (SyntaxError "Unexpected token '<'")
              eq_refl eq_refl eq_refl eq_refl eq_refl eq_refl) as [H _].
  apply H.
Defined.

(** X13: a body that parses to a value without properties ([null]) makes
    the reading of [prediction] fail; the [catch] block reports that error
    like any other: for a successful status the first and the third handler
    show [Error: <message>] in the result element, the handler with the
    error element shows it in the error element, and the handler with the
    JSON body shows its fixed text. *)
Theorem unreadable_body_display
    (net : Request -> completion Response) (form : list (string * string))
    (w : World) (result_el error_el container_el : element)
    (r : Response) (data : value) (e : Error) :
  elements w !! "prediction-result" = Some result_el ->
  elements w !! "error-result" = Some error_el ->
  elements w !! "result" = Some container_el ->
  net (multipart_request form) = Normal r ->
  net (json_request (jsonData form)) = Normal r ->
  ok r = true ->
  json r = Normal data ->
  Get data "prediction" = Raised e ->
  shown "prediction-result" (snd (submit_multipart net form w))
  = Some ("Error: " ++ message e) /\
  shown "prediction-result" (snd (submit_plain net form w))
  = Some ("Error: " ++ message e) /\
  shown "error-result" (snd (submit_error_element net form w))
  = Some ("Error: " ++ message e) /\
  shown "prediction-result" (snd (submit_error_element net form w))
  = Some "" /\
  shown "prediction-result" (snd (submit_json net form w))
  = Some generic_failure.
Proof.
  intros Hresult Herror Hcontainer Hmulti Hnet Hok Hjson Hget.
  rewrite (submit_multipart_run _ _ _ _ Hresult),
    (submit_plain_run _ _ _ _ Hresult),
    (submit_error_element_run _ _ _ _ _ Hresult Herror),
    (submit_json_run _ _ _ _ _ Hresult Hcontainer), Hmulti, Hnet.
  unfold multipart_verdict, error_element_verdict, json_verdict, display,
    settle, attempt.
  rewrite Hok, Hjson, Hget. cbn [negb].
  repeat split; by page.
Qed.

Lemma unreadable_body_display_witness :
  shown "prediction-result" (snd (submit_multipart null_body alice (page "")))
  = Some "Error: Cannot read properties of null (reading 'prediction')".
Proof.
  apply (unreadable_body_display null_body alice (page "")
           (blank "") (blank "") (blank "")
           {| status := 200; text := Normal "null"; json := Normal Null |}
           Null (TypeError (cannot_read "prediction" "null"))
           eq_refl eq_refl eq_refl eq_refl eq_refl eq_refl eq_refl eq_refl).
Defined.

(** ** One request, one display *)

Lemma multipart_texts o :
  match multipart_verdict o with
  | Predicted t => exists s, t = "Prediction: " ++ s
  | Refused t => exists x, t = "Error: " ++ x
  | Caught _ | Hangs => True
  end.
Proof.
  unfold multipart_verdict, display, settle, attempt.
  destruct o as [r| |]; [|done..].
  destruct (negb (ok r)); [by destruct (text r)|].
  destruct (json r) as [data| |]; [|done..].
  destruct (Get data "prediction") as [v|]; [|done].
  destruct (negb (is_undefined v)); [destruct (ToString v); eauto|].
  destruct (fallback_cases data "No prediction available")
    as [[e ->]|[x ->]]; eauto.
Qed.

Lemma json_texts o :
  match json_verdict o with
  | Predicted t => exists s, t = "Predicted Final Marks: " ++ s
  | Refused t => exists x, t = "Error: " ++ x
  | Caught _ | Hangs => True
  end.
Proof.
  unfold json_verdict, settle, attempt.
  destruct o as [r| |]; [|done..].
  destruct (negb (ok r)); [done|].
  destruct (json r) as [data| |]; [|done..].
  destruct (Get data "prediction") as [v|]; [|done].
  destruct (ToBoolean v); [destruct (ToString v); eauto|].
  destruct (fallback_cases data "Unexpected error occurred")
    as [[e ->]|[x ->]]; eauto.
Qed.

(** The requests, console entries and assignments among the events of a
    run. *)
Ltac census :=
  trace; unfold requests, logs, writes; rewrite ?omap_app; cbn [omap].

(** X14: with its elements in place, every handler issues exactly one
    request per submission, whatever the network answers; it makes at most
    one console entry; and after the assignments that prepare the display
    it assigns a text exactly once if the run completes, and not at all
    while it waits. *)
Theorem one_request_one_display
    (net : Request -> completion Response) (form : list (string * string))
    (w : World) (result_el error_el container_el : element) :
  elements w !! "prediction-result" = Some result_el ->
  elements w !! "error-result" = Some error_el ->
  elements w !! "result" = Some container_el ->
  let once (run : completion unit * World) (req : Request)
           (prepared : list (string * string)) :=
    requests (events (snd run)) = (requests (events w) ++ [req])%list /\
    (exists entries,
       logs (events (snd run)) = (logs (events w) ++ entries)%list /\
       (length entries <= 1)%nat) /\
    (exists final,
       writes (events (snd run))
       = (writes (events w) ++ prepared ++ final)%list /\
       ((fst run = Pending /\ final = []) \/
        (fst run = Normal tt /\ exists id t, final = [(id, t)]))) in
  once (submit_multipart net form w) (multipart_request form)
       [("prediction-result", "Processing...")] /\
  once (submit_json net form w) (json_request (jsonData form))
       [("prediction-result", "Processing...")] /\
  once (submit_plain net form w) (multipart_request form) [] /\
  once (submit_error_element net form w) (multipart_request form)
       [("prediction-result", ""); ("error-result", "")].
Proof.
  intros Hresult Herror Hcontainer once. subst once. cbv beta.
  rewrite (submit_multipart_run _ _ _ _ Hresult),
    (submit_plain_run _ _ _ _ Hresult),
    (submit_error_element_run _ _ _ _ _ Hresult Herror),
    (submit_json_run _ _ _ _ _ Hresult Hcontainer).
  split; [|split; [|split]].
  - destruct (multipart_verdict _) as [t|t|e|].
    all: split; [by census|]; split; [eexists; split; [by census|simpl; lia]|].
    all: eexists; split; [by census|]; eauto.
  - destruct (json_verdict _) as [t|t|e|].
    all: split; [by census|]; split; [eexists; split; [by census|simpl; lia]|].
    all: eexists; split; [by census|]; eauto.
  - destruct (multipart_verdict _) as [t|t|e|].
    all: split; [by census|]; split; [eexists; split; [by census|simpl; lia]|].
    all: eexists; split; [by census|]; eauto.
  - destruct (error_element_verdict _) as [t|t|e|].
    all: split; [by census|]; split; [eexists; split; [by census|simpl; lia]|].
    all: eexists; split; [by census|]; eauto.
Qed.

Lemma one_request_one_display_witness :
  requests (events (snd (submit_json server_error_page alice (page ""))))
  = (requests (events (page "")) ++ [json_request (jsonData alice)])%list.
Proof.
  apply (one_request_one_display server_error_page alice (page "")
           (blank "") (blank "") (blank "") eq_refl eq_refl eq_refl).
Defined.

(** ** While the handler waits *)

Lemma contains_add cls l : contains cls (add_token cls l) = true.
Proof.
  unfold add_token. destruct (contains cls l) eqn:H; [done|].
  unfold contains. rewrite existsb_app. simpl.
  rewrite String.eqb_refl. apply orb_true_r.
Qed.

Lemma remove_add cls l :
  remove_token cls (add_token cls l) = remove_token cls l.
Proof.
  unfold add_token. destruct (contains cls l); [done|].
  unfold remove_token. rewrite List.filter_app. simpl.
  rewrite String.eqb_refl. simpl. apply app_nil_r.
Qed.

Lemma remove_absent cls l : contains cls l = false -> remove_token cls l = l.
Proof.
  unfold contains, remove_token. induction l as [|c l IH]; [done|]. simpl.
  destruct (String.eqb cls c); [done|]. simpl. intros H. by rewrite IH.
Qed.

(** X15: [Processing...] is on display exactly while the handler waits:
    with its elements in place, the first handler and the handler with the
    JSON body leave [Processing...] in the result element if and only if
    the run has not completed, and the container holds the loading class
    under the same condition; the third handler, which prepares nothing,
    leaves the text of the last submission on display while it waits. *)
Theorem processing_shown_while_waiting
    (net : Request -> completion Response) (form : list (string * string))
    (w : World) (result_el container_el : element) :
  elements w !! "prediction-result" = Some result_el ->
  elements w !! "result" = Some container_el ->
  (shown "prediction-result" (snd (submit_multipart net form w))
   = Some "Processing..." <->
   fst (submit_multipart net form w) = Pending) /\
  (shown "prediction-result" (snd (submit_json net form w))
   = Some "Processing..." <->
   fst (submit_json net form w) = Pending) /\
  ((exists l, classes "result" (snd (submit_json net form w)) = Some l /\
              contains "loading" l = true) <->
   fst (submit_json net form w) = Pending) /\
  (fst (submit_plain net form w) = Pending ->
   shown "prediction-result" (snd (submit_plain net form w))
   = Some (textContent result_el)).
Proof.
  intros Hresult Hcontainer.
  rewrite (submit_multipart_run _ _ _ _ Hresult),
    (submit_plain_run _ _ _ _ Hresult),
    (submit_json_run _ _ _ _ _ Hresult Hcontainer).
  pose proof (multipart_texts (net (multipart_request form))) as Hm.
  pose proof (json_texts (net (json_request (jsonData form)))) as Hj.
  split; [|split; [|split]].
  - destruct (multipart_verdict _) as [t|t|e|]; page.
    + destruct Hm as [s ->]. split; [intros [= H]; by vm_compute in H|done].
    + destruct Hm as [x ->]. split; [intros [= H]; by vm_compute in H|done].
    + split; [intros [= H]; by vm_compute in H|done].
    + done.
  - destruct (json_verdict _) as [t|t|e|]; page.
    + destruct Hj as [s ->]. split; [intros [= H]; by vm_compute in H|done].
    + destruct Hj as [x ->]. split; [intros [= H]; by vm_compute in H|done].
    + split; [intros [= H]; by vm_compute in H|done].
    + done.
  - destruct (json_verdict _) as [t|t|e|]; page; unfold classes;
      rewrite Hcontainer; simpl.
    1-3: split; [intros (l & [= <-] & H)|done];
      by rewrite contains_remove in H.
    split; [done|]. intros _. eexists. split; [done|]. apply contains_add.
  - destruct (multipart_verdict _) as [t|t|e|]; try done. intros _.
    page. unfold shown. by rewrite Hresult.
Qed.

Lemma processing_shown_while_waiting_witness :
  shown "prediction-result" (snd (submit_plain unanswered alice (page "Prediction: 42")))
  = Some "Prediction: 42".
Proof.
  destruct (processing_shown_while_waiting unanswered alice
              (page "Prediction: 42") (blank "Prediction: 42") (blank "")
              eq_refl eq_refl) as (_ & _ & _ & H).
  apply H. reflexivity.
Defined.

(** ** The class list of the container *)

(** X16: the handler with the JSON body gives the class list of the
    container back as it found it: once the run has completed, the class
    list is the one from before the submission without [loading], in the
    same order, so if [loading] was not in it the class list is the very
    list it was. *)
Theorem loading_class_round_trip
    (net : Request -> completion Response) (form : list (string * string))
    (w : World) (result_el container_el : element) :
  elements w !! "prediction-result" = Some result_el ->
  elements w !! "result" = Some container_el ->
  fst (submit_json net form w) <> Pending ->
  classes "result" (snd (submit_json net form w))
  = Some (remove_token "loading" (classList container_el)) /\
  (contains "loading" (classList container_el) = false ->
   classes "result" (snd (submit_json net form w))
   = Some (classList container_el)).
Proof.
  intros Hresult Hcontainer.
  rewrite (submit_json_run _ _ _ _ _ Hresult Hcontainer).
  destruct (json_verdict _) as [t|t|e|]; [..|done]; intros _.
  all: match goal with
       | |- ?c = _ /\ _ =>
           assert (c = Some (remove_token "loading" (classList container_el)))
             as Hclasses
             by (page; unfold classes; rewrite Hcontainer; simpl;
                 by rewrite remove_add)
       end.
  all: split; [done|]; intros Habsent.
  all: by rewrite Hclasses, remove_absent.
Qed.

Lemma loading_class_round_trip_witness :
  classes "result" (snd (submit_json good_prediction alice (page "")))
  = Some [].
Proof.
  destruct (loading_class_round_trip good_prediction alice (page "")
              (blank "") (blank "") eq_refl eq_refl) as [_ H].
  - discriminate.
  - apply H. reflexivity.
Defined.

(** ** The names in the JSON payload *)

Lemma assoc_none {A} k (l : list (string * A)) :
  assoc k l = None <-> ~ In k (map fst l).
Proof.
  induction l as [|[k' a] l IH]; simpl; [tauto|].
  destruct (String.eqb_spec k k') as [->|Hne]; [|rewrite IH]; split;
    try done; intuition congruence.
Qed.

Lemma keys_update k v props : map fst (update k v props) = map fst props.
Proof.
  induction props as [|[k' a] props IH]; [done|]. simpl.
  destruct (String.eqb_spec k k') as [->|Hne]; simpl; [done|by rewrite IH].
Qed.

Lemma keys_insert_index k v props :
  map fst (insert_index k v props) ≡ₚ k :: map fst props.
Proof.
  induction props as [|[k' a] props IH]; [done|]. simpl.
  destruct (is_array_index k' && (index_value k' <? index_value k))%bool;
    simpl; [|done].
  rewrite IH. apply Permutation_swap.
Qed.

(** An assignment keeps each name once. *)
Lemma keys_set_property props k v :
  NoDup (map fst props) -> NoDup (map fst (set_property props k v)).
Proof.
  intros Hprops. unfold set_property.
  destruct (String.eqb k "__proto__"); [done|].
  destruct (assoc k props) eqn:Hk; [by rewrite keys_update|].
  apply assoc_none in Hk. rewrite <- list_elem_of_In in Hk.
  destruct (is_array_index k).
  - rewrite keys_insert_index. by apply NoDup_cons.
  - rewrite map_app. simpl. apply NoDup_app. split; [done|].
    split; [|apply NoDup_singleton].
    intros x Hx ->%list_elem_of_singleton. done.
Qed.

Lemma keys_fill form : forall obj,
  NoDup (map fst obj) -> NoDup (map fst (fill obj form)).
Proof.
  induction form as [|[k v] form IH]; intros obj Hobj; [done|].
  apply IH. by apply keys_set_property.
Qed.

Lemma last_value_none key form :
  last_value key form = None <-> ~ In key (map fst form).
Proof.
  induction form as [|[k v] form IH]; simpl; [tauto|].
  destruct (last_value key form).
  - split; [done|]. intros H. apply IH. tauto.
  - destruct (String.eqb_spec key k) as [->|Hne]; split; try done.
    + tauto.
    + intros _ [?|?]; [congruence|]. by apply IH.
Qed.

(** The accessor [__proto__] never becomes a name of the object. *)
Lemma assoc_fill_proto form : forall obj,
  assoc "__proto__" (fill obj form) = assoc "__proto__" obj.
Proof.
  induction form as [|[k v] form IH]; intros obj; [done|].
  change (fill obj ((k, v) :: form))
    with (fill (set_property obj k (coerce k v)) form).
  rewrite IH. destruct (String.eqb_spec k "__proto__") as [->|Hk]; [done|].
  rewrite assoc_set_property by done.
  by destruct (String.eqb_spec "__proto__" k).
Qed.

(** X17: the payload has the names of the form's fields, each once: a
    name is in the payload if and only if the form has a field of that
    name and the name is not [__proto__], and no name is there twice,
    however often the form repeats it. *)
Theorem payload_names (form : list (string * string)) (key : string) :
  NoDup (map fst (jsonData form)) /\
  (In key (map fst (jsonData form)) <->
   In key (map fst form) /\ key <> "__proto__").
Proof.
  split; [apply (keys_fill form []); constructor|].
  pose proof (assoc_none key (jsonData form)) as Hpayload.
  pose proof (last_value_none key form) as Hform.
  change (jsonData form) with (fill [] form) in *.
  destruct (String.eqb_spec key "__proto__") as [->|Hkey].
  - rewrite assoc_fill_proto in Hpayload. simpl in Hpayload.
    split; [|tauto]. intros Hin. exfalso. by apply Hpayload.
  - rewrite assoc_fill in Hpayload by done.
    destruct (last_value key form) as [val|]; simpl in Hpayload.
    + split.
      * intros _. split; [|done].
        destruct (in_dec string_dec key (map fst form)) as [|Hout]; [done|].
        by apply Hform in Hout.
      * intros _.
        destruct (in_dec string_dec key (map fst (fill [] form)))
          as [|Hout]; [done|].
        by apply Hpayload in Hout.
    + split.
      * intros Hin. exfalso. by apply Hpayload.
      * intros [Hin _]. exfalso. by apply Hform.
Qed.

(** ** Blank fields and white space *)

Lemma trim_start_blank s : all_white_space s = true -> trim_start s = "".
Proof.
  induction s as [|c s IH]; [done|]. simpl.
  destruct (is_white_space c); [done|done].
Qed.

Lemma trim_start_app ws s :
  all_white_space ws = true -> trim_start (ws ++ s) = trim_start s.
Proof.
  induction ws as [|c ws IH]; [done|]. rewrite append_cons. simpl.
  destruct (is_white_space c); [done|done].
Qed.

Lemma parseFloat_app ws s :
  all_white_space ws = true -> parseFloat (ws ++ s) = parseFloat s.
Proof. intros H. unfold parseFloat. by rewrite trim_start_app. Qed.

Lemma lacks_number_blank s : all_white_space s = true -> lacks_number s = true.
Proof. intros H. unfold lacks_number. by rewrite trim_start_blank. Qed.

Lemma parseFloat_lacks_number s : lacks_number s = true -> parseFloat s = NaN.
Proof.
  unfold lacks_number, parseFloat.
  destruct (trim_start s) as [|c rest]; [done|]. intros Hc.
  destruct c as [[] [] [] [] [] [] [] []]; vm_compute in Hc;
    first [discriminate Hc | reflexivity].
Qed.

(** X18: a field other than [name] whose text holds no number at its
    start (it is empty, or white space only, or starts after its white
    space with something other than a digit, a sign, a point or [I]) is
    sent as the number [0]: the payload does not tell such a field from one
    filled in with [0]. *)
Theorem field_without_number_sent_as_zero
    (form : list (string * string)) (key val : string) :
  last_value key form = Some val ->
  lacks_number val = true ->
  key <> "name" ->
  key <> "__proto__" ->
  assoc key (jsonData form) = Some (Num zero) /\
  SerializeJSONProperty (Num zero) = Some "0".
Proof.
  intros Hlast Hblank Hname Hproto. split; [|done].
  change (jsonData form) with (fill [] form).
  rewrite assoc_fill, Hlast by done. unfold coerce.
  destruct (String.eqb_spec key "name"); [done|].
  by rewrite parseFloat_lacks_number.
Qed.

Lemma field_without_number_sent_as_zero_witness :
  assoc "hours" (jsonData [("name", "Alice"); ("hours", " n/a")])
  = Some (Num zero).
Proof.
  apply (field_without_number_sent_as_zero
           [("name", "Alice"); ("hours", " n/a")] "hours" " n/a");
    [reflexivity | reflexivity | discriminate..].
Defined.

(** X19: white space before the text of a field other than [name] does
    not change what is sent for it, while the text of [name] is sent as
    typed, white space included. *)
Theorem leading_white_space_ignored (key ws val : string) :
  all_white_space ws = true ->
  (key <> "name" -> coerce key (ws ++ val) = coerce key val) /\
  coerce "name" (ws ++ val) = Str (ws ++ val).
Proof.
  intros Hws. split; [|done]. intros Hname. unfold coerce.
  destruct (String.eqb_spec key "name"); [done|].
  by rewrite parseFloat_app.
Qed.

Lemma leading_white_space_ignored_witness :
  coerce "hours" (" " ++ "7.5") = coerce "hours" "7.5".
Proof.
  destruct (leading_white_space_ignored "hours" " " "7.5" eq_refl) as [H _].
  apply H. discriminate.
Defined.

(** ** The body of the JSON request *)

Lemma assoc_in {A} k (a : A) l :
  NoDup (map fst l) -> In (k, a) l -> assoc k l = Some a.
Proof.
  induction l as [|[k' a'] l IH]; [done|]. simpl.
  intros [Hout Hl]%NoDup_cons [[= -> ->]|Hin].
  - by rewrite String.eqb_refl.
  - destruct (String.eqb_spec k k') as [->|Hne]; [|by apply IH].
    exfalso. apply Hout. rewrite list_elem_of_In.
    change k' with (fst (k', a)). by apply in_map.
Qed.

Lemma coerce_serialized key val :
  exists s, SerializeJSONProperty (coerce key val) = Some s.
Proof.
  unfold coerce, or_else. destruct (String.eqb key "name"); [by eexists|].
  destruct (ToBoolean _); by eexists.
Qed.

Lemma serialized_set_property props k val :
  (forall k' v, assoc k' props = Some v ->
                exists s, SerializeJSONProperty v = Some s) ->
  forall k' v, assoc k' (set_property props k (coerce k val)) = Some v ->
               exists s, SerializeJSONProperty v = Some s.
Proof.
  intros Hprops k' v. destruct (String.eqb_spec k "__proto__") as [->|Hk].
  - rewrite set_property_proto. apply Hprops.
  - rewrite assoc_set_property by done.
    destruct (String.eqb_spec k' k) as [->|Hne]; [|apply Hprops].
    intros [= <-]. apply coerce_serialized.
Qed.

Lemma serialized_fill form : forall obj,
  (forall k v, assoc k obj = Some v ->
               exists s, SerializeJSONProperty v = Some s) ->
  forall k v, assoc k (fill obj form) = Some v ->
              exists s, SerializeJSONProperty v = Some s.
Proof.
  induction form as [|[k val] form IH]; intros obj Hobj; [done|].
  apply IH. by apply serialized_set_property.
Qed.

(** JSON.stringify drops no property whose value it can serialize. *)
Lemma stringify_members props :
  (forall k v, In (k, v) props -> exists s, SerializeJSONProperty v = Some s) ->
  exists body_members,
    JSON_stringify (Obj props) = "{" ++ join "," body_members ++ "}" /\
    Forall2 (fun '(k, v) m =>
               exists s, SerializeJSONProperty v = Some s /\
                         m = QuoteJSONString k ++ ":" ++ s)
            props body_members.
Proof.
  intros H. unfold JSON_stringify. cbn [SerializeJSONProperty default].
  eexists. split; [reflexivity|].
  induction props as [|[k v] props IH]; [constructor|].
  destruct (H k v) as [s Hs]; [by left|]. rewrite Hs.
  constructor; [by exists s|].
  apply IH. intros k' v' Hin. apply (H k' v'). by right.
Qed.

(** X20: the body of the JSON request holds one member for every name of
    the payload, in the payload's order, and drops none: it is [{], the
    members [<quoted name>:<serialized value>] joined by commas, and [}]. *)
Theorem every_field_in_body (form : list (string * string)) :
  exists body_members,
    body (json_request (jsonData form))
    = TextBody ("{" ++ join "," body_members ++ "}") /\
    Forall2 (fun '(k, v) m =>
               exists s, SerializeJSONProperty v = Some s /\
                         m = QuoteJSONString k ++ ":" ++ s)
            (jsonData form) body_members.
Proof.
  unfold json_request. cbn [body].
  destruct (stringify_members (jsonData form)) as (ms & -> & Hms); [|by exists ms].
  intros k v Hin.
  apply (serialized_fill form [] (fun k v H => ltac:(discriminate)) k v).
  apply assoc_in; [|done]. apply (keys_fill form []). constructor.
Qed.

(** ** The first and the third handler *)

(** An assignment to an element replaces the text assigned before, and
    looks at nothing but the elements. *)
Lemma elements_write_record id t ev w :
  elements (write id t (record ev w)) = elements (write id t w).
Proof. unfold write, record, set_textContent, emit. simpl. by destruct (_ !! _). Qed.

Lemma elements_write_write id t t' w :
  elements (write id t (write id t' w)) = elements (write id t w).
Proof.
  destruct (elements w !! id) as [el|] eqn:H.
  - rewrite (write_present id t' w el H).
    unfold write at 1. unfold set_textContent. simpl. rewrite lookup_set. simpl.
    rewrite (write_present id t w el H). simpl. by rewrite insert_insert_eq.
  - by rewrite !(write_absent _ _ _ H).
Qed.

(** X21: the third handler ends as the first does: where the result
    element is in place, and for the same form and network, both runs end
    the same way, issue the same request and make the same console entries,
    and once they have completed the elements of the page are the same; the
    assignments of the first are those of the third after
    [Processing...]. *)
Theorem plain_ends_as_multipart
    (net : Request -> completion Response) (form : list (string * string))
    (w : World) (result_el : element) :
  elements w !! "prediction-result" = Some result_el ->
  fst (submit_plain net form w) = fst (submit_multipart net form w) /\
  requests (events (snd (submit_plain net form w)))
  = requests (events (snd (submit_multipart net form w))) /\
  logs (events (snd (submit_plain net form w)))
  = logs (events (snd (submit_multipart net form w))) /\
  (exists final,
     writes (events (snd (submit_plain net form w)))
     = (writes (events w) ++ final)%list /\
     writes (events (snd (submit_multipart net form w)))
     = (writes (events w) ++
        ("prediction-result", "Processing...") :: final)%list) /\
  (fst (submit_multipart net form w) <> Pending ->
   elements (snd (submit_plain net form w))
   = elements (snd (submit_multipart net form w))).
Proof.
  intros Hresult.
  rewrite (submit_multipart_run _ _ _ _ Hresult),
    (submit_plain_run _ _ _ _ Hresult).
  destruct (multipart_verdict _) as [t|t|e|].
  all: split; [done|]; split; [by census|]; split; [by census|].
  all: split; [eexists; split; by census|].
  all: intros Hdone; try done; unfold conclude, report; cbn [snd].
  all: by repeat first [ rewrite elements_write_record
                       | rewrite elements_write_write ].
Qed.

Lemma plain_ends_as_multipart_witness :
  elements (snd (submit_plain good_prediction alice (page "")))
  = elements (snd (submit_multipart good_prediction alice (page ""))).
Proof.
  destruct (plain_ends_as_multipart good_prediction alice (page "") (blank "")
              eq_refl) as (_ & _ & _ & _ & H).
  apply H. discriminate.
Defined.
